(** * gpsExtraService: the location manager controller

    A shallow embedding of [gpsExtraService/src/location_manager.c]: the three
    file-level records ([s_location_data], [s_gps_data], [s_sat_data]), the
    platform calls the controller makes (location provider, runtime info,
    message port, bundle, clock, ecore timers) and every function of the file,
    written in a small state monad over the records and the history of
    platform calls.

    What the platform answers is not decided by the controller: it is an
    [oracle], a function of the history so far, and the theorems quantify
    over all of them. [dlog_print] only writes to the log and is left out. *)

From Stdlib Require Import ZArith List String Ascii Bool Lia.
From Stdlib Require Import Floats.PrimFloat Floats.SpecFloat Floats.FloatOps.
From Stdlib Require Import DecimalString.
From Stdlib Require Decimal DecimalFacts DecimalPos DecimalZ.
Import ListNotations.

Local Open Scope Z_scope.

(* Decimal literals such as 50.2 denote the nearest binary64 value. *)
Set Warnings "-inexact-float".

(** ** Constants of [location_manager.c] and [location_manager.h] *)

Definition POSITION_UPDATE_INTERVAL : Z := 3.
Definition SATELLITE_UPDATE_INTERVAL : Z := 10.
Definition CHAR_BUFF_SIZE : nat := 20.
Definition MAX_TIME_DIFF : Z := 30.
Definition SEND_DATA_INTERVAL : float := 5.0%float.

Definition MESSAGE_TYPE_POSITION_UPDATE : string := "POSITION_UPDATE".
Definition MESSAGE_TYPE_SATELLITES_UPDATE : string := "SATELLITES_UPDATE".

Definition REMOTE_APP_ID : string := "org.gec.gpsViewer".
Definition REMOTE_PORT : string := "gps.port".

(** ** Platform types *)

(** A provider handle that is not [NULL]; a [location_manager_h] variable is
    an [option] of it, [None] being [NULL]. *)
Definition location_manager_h : Type := positive.

(** [location_service_state_e]: the two states the code names, and any other
    value of the enumeration's integer type. *)
Inductive location_service_state_e : Type :=
| LOCATIONS_SERVICE_DISABLED
| LOCATIONS_SERVICE_ENABLED
| LOCATIONS_SERVICE_OTHER (code : Z).

Inductive runtime_info_key_e : Type :=
| RUNTIME_INFO_KEY_LOCATION_SERVICE_ENABLED
| RUNTIME_INFO_KEY_GPS_STATUS
| RUNTIME_INFO_KEY_WIFI_HOTSPOT_ENABLED
| RUNTIME_INFO_KEY_BLUETOOTH_ENABLED.

(** Third enumerator of the platform's [runtime_info_gps_status_e]
    (disabled, searching, connected). *)
Definition RUNTIME_INFO_GPS_STATUS_CONNECTED : Z := 2.

(** [Eina_Bool] and the two answers of an ecore timer callback. *)
Definition Eina_Bool : Type := bool.
Definition EINA_TRUE : Eina_Bool := true.
Definition EINA_FALSE : Eina_Bool := false.
Definition ECORE_CALLBACK_CANCEL : Eina_Bool := EINA_FALSE.
Definition ECORE_CALLBACK_RENEW : Eina_Bool := EINA_TRUE.

(** [time_t]: seconds since the epoch in a signed 64-bit integer. The code
    subtracts two of them; the difference is taken in two's complement. *)
Definition time_t : Type := Z.
Definition TIME_MIN : Z := - 2 ^ 63.
Definition TIME_MAX : Z := 2 ^ 63 - 1.

Definition time_wrap (z : Z) : time_t := (z + 2 ^ 63) mod 2 ^ 64 - 2 ^ 63.

Definition time_sub (a b : time_t) : time_t := time_wrap (a - b).

(** ** The bundle: an ordered list of string pairs

    [bundle_add_str] refuses a key the bundle already holds. *)
Definition bundle : Type := list (string * string).

Definition bundle_get_str (b : bundle) (key : string) : option string :=
  option_map snd (find (fun kv => String.eqb (fst kv) key) b).

Definition bundle_add_str (b : bundle) (key val : string) : bundle :=
  match bundle_get_str b key with
  | Some _ => b
  | None => b ++ [(key, val)]
  end.

(** ** [snprintf] with the two conversions the code uses *)

Definition decimal (z : Z) : string := NilZero.string_of_int (Z.to_int z).

Fixpoint zeros (n : nat) : string :=
  match n with
  | O => EmptyString
  | S n' => String "0" (zeros n')
  end.

Definition pad_left (width : nat) (s : string) : string :=
  String.append (zeros (width - String.length s)) s.

(** Nearest integer to [num / den] ([den] positive), ties to even. *)
Definition round_half_even (num den : Z) : Z :=
  let q := num / den in
  let r := num mod den in
  if 2 * r <? den then q
  else if den <? 2 * r then q + 1
  else if Z.even q then q else q + 1.

Definition sign_str (s : bool) : string := if s then "-" else "".

(** ["%f"]: six digits after the point, the binary64 value rounded exactly,
    ties to even. A NaN has no sign here and prints as "nan". *)
Definition format_f (x : float) : string :=
  match Prim2SF x with
  | S754_zero s => String.append (sign_str s) "0.000000"
  | S754_infinity s => String.append (sign_str s) "inf"
  | S754_nan => "nan"
  | S754_finite s m e =>
      let num := Z.pos m * 10 ^ 6 * 2 ^ (Z.max e 0) in
      let den := 2 ^ (Z.max (- e) 0) in
      let n := round_half_even num den in
      String.append (sign_str s)
        (String.append (decimal (n / 10 ^ 6))
           (String.append "." (pad_left 6 (decimal (n mod 10 ^ 6)))))
  end.

(** ["%d"]. *)
Definition format_d (z : Z) : string := decimal z.

(** [snprintf( buf, size, ... )] keeps at most [size - 1] characters. *)
Definition snprintf (size : nat) (formatted : string) : string :=
  substring 0 (size - 1) formatted.

(** ** The three records of the translation unit *)

Record location_data : Type := mk_location_data {
  gpsEnabled : bool;
  satEnabled : bool;
  manager : option location_manager_h;
  state : location_service_state_e;
  connected : bool;
  data_sent : bool
}.

Record gps_data : Type := mk_gps_data {
  altitude : float;
  latitude : float;
  longitude : float;
  climb : float;
  direction : float;
  speed : float;
  horizontal : float;
  vertical : float;
  level : Z;
  timestamp : time_t
}.

(** The satellite record's [timestamp] field is [sat_timestamp] here. Its
    two [int] counts are only stored, compared with zero and printed. *)
Record sat_data : Type := mk_sat_data {
  active : Z;
  inview : Z;
  sat_timestamp : time_t
}.

Definition s_location_data_init : location_data :=
  {| gpsEnabled := false;
     satEnabled := false;
     manager := None;
     state := LOCATIONS_SERVICE_DISABLED;
     connected := false;
     data_sent := true |}.

Definition s_gps_data_init : gps_data :=
  {| altitude := 0.0; latitude := 0.0; longitude := 0.0; climb := 0.0;
     direction := 0.0; speed := 0.0; horizontal := 0.0; vertical := 0.0;
     level := 0; timestamp := 0 |}.

Definition s_sat_data_init : sat_data :=
  {| active := 0; inview := 0; sat_timestamp := 0 |}.

(** ** Platform calls and their history *)

(** One constructor per platform call the controller makes, with the
    arguments it passes and, where the call answers, the answer. A getter
    answers [Some] values it stored through its out-parameters, or [None]
    for an error that left them untouched. *)
Inductive event : Type :=
| RuntimeInfoGetValueBool (key : runtime_info_key_e)
| RuntimeInfoGetValueInt (key : runtime_info_key_e) (value : Z)
| LocationManagerCreate (created : option location_manager_h)
| SetServiceStateChangedCb (m : option location_manager_h) (ok : bool)
| UnsetServiceStateChangedCb (m : location_manager_h)
| LocationManagerStart (m : option location_manager_h) (ok : bool)
| LocationManagerStop (m : location_manager_h)
| LocationManagerDestroy (m : location_manager_h)
| SetPositionUpdatedCb (m : option location_manager_h) (interval : Z) (ok : bool)
| UnsetPositionUpdatedCb (m : location_manager_h)
| SetSatelliteUpdatedCb (m : option location_manager_h) (interval : Z) (ok : bool)
| UnsetSatelliteUpdatedCb (m : location_manager_h)
| GetLocation (m : option location_manager_h) (got : option gps_data)
| GetLastLocation (m : option location_manager_h) (got : option gps_data)
| GetSatellite (m : option location_manager_h) (got : option sat_data)
| GetLastSatellite (m : option location_manager_h) (got : option sat_data)
| ForeachSatellitesInView (m : option location_manager_h)
| GetNmea (m : option location_manager_h)
| CheckRemotePort (app port : string) (exist : option bool)
| BundleCreate (ok : bool)
| BundleFree
| SendMessage (app port : string) (b : bundle) (ok : bool)
| GetTime (now : time_t)
| EcoreTimerAdd (interval : float).

(** The platform's answers, each a function of the calls made so far (oldest
    first) and of the call's arguments. A registration, a start or a send
    answers whether it returned its [..._ERROR_NONE]; the code reads nothing
    else of an error code than that, to choose a log line.
    [runtime_info_gps_status] is what [gpsStatus] holds once
    [runtime_info_get_value_int] has returned. *)
Record oracle : Type := mk_oracle {
  runtime_info_gps_status : list event -> Z;
  location_manager_create : list event -> option location_manager_h;
  location_manager_set_service_state_changed_cb :
    list event -> option location_manager_h -> bool;
  location_manager_start : list event -> option location_manager_h -> bool;
  location_manager_set_position_updated_cb :
    list event -> option location_manager_h -> Z -> bool;
  gps_status_set_satellite_updated_cb :
    list event -> option location_manager_h -> Z -> bool;
  location_manager_get_location :
    list event -> option location_manager_h -> option gps_data;
  location_manager_get_last_location :
    list event -> option location_manager_h -> option gps_data;
  gps_status_get_satellite :
    list event -> option location_manager_h -> option sat_data;
  gps_status_get_last_satellite :
    list event -> option location_manager_h -> option sat_data;
  message_port_check_remote_port : list event -> string -> string -> option bool;
  bundle_create : list event -> bool;
  message_port_send_message : list event -> string -> string -> bundle -> bool;
  time : list event -> time_t
}.

(** The whole state: the three records, the history of platform calls, and
    the number of [onTimerSend] timers the ecore main loop holds. *)
Record world : Type := mk_world {
  s_location_data : location_data;
  s_gps_data : gps_data;
  s_sat_data : sat_data;
  trace : list event;
  timers : nat
}.

Definition initial_world : world :=
  {| s_location_data := s_location_data_init;
     s_gps_data := s_gps_data_init;
     s_sat_data := s_sat_data_init;
     trace := [];
     timers := 0 |}.

(** ** The state monad *)

Definition M (A : Type) : Type := world -> A * world.

Definition ret {A : Type} (a : A) : M A := fun w => (a, w).

Definition bind {A B : Type} (m : M A) (k : A -> M B) : M B :=
  fun w => let (a, w') := m w in k a w'.

Declare Scope monad_scope.
Delimit Scope monad_scope with monad.
Notation "x <- c1 ;; c2" := (bind c1 (fun x => c2))
  (at level 61, c1 at next level, right associativity) : monad_scope.
Notation "c1 ;; c2" := (bind c1 (fun _ => c2))
  (at level 61, right associativity) : monad_scope.
Local Open Scope monad_scope.

Definition get_location_data : M location_data :=
  fun w => (s_location_data w, w).

Definition put_location_data (d : location_data) : M unit :=
  fun w => (tt, {| s_location_data := d; s_gps_data := s_gps_data w;
                   s_sat_data := s_sat_data w; trace := trace w;
                   timers := timers w |}).

Definition get_gps_data : M gps_data := fun w => (s_gps_data w, w).

Definition put_gps_data (g : gps_data) : M unit :=
  fun w => (tt, {| s_location_data := s_location_data w; s_gps_data := g;
                   s_sat_data := s_sat_data w; trace := trace w;
                   timers := timers w |}).

Definition get_sat_data : M sat_data := fun w => (s_sat_data w, w).

Definition put_sat_data (s : sat_data) : M unit :=
  fun w => (tt, {| s_location_data := s_location_data w;
                   s_gps_data := s_gps_data w; s_sat_data := s;
                   trace := trace w; timers := timers w |}).

(** A platform call that answers nothing the code reads. *)
Definition emit (e : event) : M unit :=
  fun w => (tt, {| s_location_data := s_location_data w;
                   s_gps_data := s_gps_data w; s_sat_data := s_sat_data w;
                   trace := trace w ++ [e]; timers := timers w |}).

(** [ecore_timer_add( interval, onTimerSend, NULL )]: the main loop holds one
    more timer; the code drops the handle the call returns. *)
Definition ecore_timer_add (interval : float) : M unit :=
  fun w => (tt, {| s_location_data := s_location_data w;
                   s_gps_data := s_gps_data w; s_sat_data := s_sat_data w;
                   trace := trace w ++ [EcoreTimerAdd interval];
                   timers := S (timers w) |}).

(** Assignments to single fields of [s_location_data]. *)
Definition set_gpsEnabled (b : bool) : M unit :=
  d <- get_location_data ;;
  put_location_data
    {| gpsEnabled := b; satEnabled := satEnabled d; manager := manager d;
       state := state d; connected := connected d; data_sent := data_sent d |}.

Definition set_satEnabled (b : bool) : M unit :=
  d <- get_location_data ;;
  put_location_data
    {| gpsEnabled := gpsEnabled d; satEnabled := b; manager := manager d;
       state := state d; connected := connected d; data_sent := data_sent d |}.

Definition set_manager (m : option location_manager_h) : M unit :=
  d <- get_location_data ;;
  put_location_data
    {| gpsEnabled := gpsEnabled d; satEnabled := satEnabled d; manager := m;
       state := state d; connected := connected d; data_sent := data_sent d |}.

Definition set_state (s : location_service_state_e) : M unit :=
  d <- get_location_data ;;
  put_location_data
    {| gpsEnabled := gpsEnabled d; satEnabled := satEnabled d;
       manager := manager d; state := s; connected := connected d;
       data_sent := data_sent d |}.

Definition set_connected (b : bool) : M unit :=
  d <- get_location_data ;;
  put_location_data
    {| gpsEnabled := gpsEnabled d; satEnabled := satEnabled d;
       manager := manager d; state := state d; connected := b;
       data_sent := data_sent d |}.

Definition set_data_sent (b : bool) : M unit :=
  d <- get_location_data ;;
  put_location_data
    {| gpsEnabled := gpsEnabled d; satEnabled := satEnabled d;
       manager := manager d; state := state d; connected := connected d;
       data_sent := b |}.

(** ** The functions of [location_manager.c] *)

Section Controller.

Variable env : oracle.

(** A platform call whose answer the code reads: the oracle is asked at the
    current history and the call is appended to it with its answer. *)
Definition call {A : Type} (answer : list event -> A) (log : A -> event) : M A :=
  fun w =>
    let a := answer (trace w) in
    (a, {| s_location_data := s_location_data w; s_gps_data := s_gps_data w;
           s_sat_data := s_sat_data w; trace := trace w ++ [log a];
           timers := timers w |}).

Definition disableGPS : M unit :=
  d <- get_location_data ;;
  match manager d with
  | Some h => emit (UnsetPositionUpdatedCb h)
  | None => ret tt
  end ;;
  set_gpsEnabled false.

Definition disableSat : M unit :=
  d <- get_location_data ;;
  match manager d with
  | Some h => emit (UnsetSatelliteUpdatedCb h)
  | None => ret tt
  end ;;
  set_satEnabled false.

Definition locationFinalize : M unit :=
  disableSat ;;
  disableGPS ;;
  d <- get_location_data ;;
  match manager d with
  | Some h =>
      emit (UnsetServiceStateChangedCb h) ;;
      emit (LocationManagerStop h) ;;
      emit (LocationManagerDestroy h)
  | None => ret tt
  end ;;
  set_manager None.

Definition locationStop : M unit := locationFinalize.

(** The three boolean queries only feed the log line; the function's result
    is the comparison of the integer one. *)
Definition gpsConnected : M bool :=
  emit (RuntimeInfoGetValueBool RUNTIME_INFO_KEY_LOCATION_SERVICE_ENABLED) ;;
  gpsStatus <- call (runtime_info_gps_status env)
                 (RuntimeInfoGetValueInt RUNTIME_INFO_KEY_GPS_STATUS) ;;
  emit (RuntimeInfoGetValueBool RUNTIME_INFO_KEY_WIFI_HOTSPOT_ENABLED) ;;
  emit (RuntimeInfoGetValueBool RUNTIME_INFO_KEY_BLUETOOTH_ENABLED) ;;
  ret (gpsStatus =? RUNTIME_INFO_GPS_STATUS_CONNECTED).

Definition checkRemotePort : M unit :=
  exist <- call (fun tr => message_port_check_remote_port env tr REMOTE_APP_ID REMOTE_PORT)
             (CheckRemotePort REMOTE_APP_ID REMOTE_PORT) ;;
  match exist with
  | Some b => set_connected b
  | None => ret tt
  end.

(** [b] is [None] for a [NULL] bundle. *)
Definition sendMessage (b : option bundle) : M bool :=
  d <- get_location_data ;;
  if negb (connected d) then ret true
  else
    match b with
    | Some b' =>
        sent <- call (fun tr => message_port_send_message env tr REMOTE_APP_ID REMOTE_PORT b')
                  (SendMessage REMOTE_APP_ID REMOTE_PORT b') ;;
        ret sent
    | None => ret false
    end.

(** [altitude_str] is filled and, as in the source, not used. *)
Definition sendPosition : M bool :=
  created <- call (bundle_create env) BundleCreate ;;
  if created then
    g <- get_gps_data ;;
    let latitude_str := snprintf CHAR_BUFF_SIZE (format_f (latitude g)) in
    let longitude_str := snprintf CHAR_BUFF_SIZE (format_f (longitude g)) in
    let altitude_str := snprintf CHAR_BUFF_SIZE (format_f (altitude g)) in
    let b := bundle_add_str [] "msg_type" MESSAGE_TYPE_POSITION_UPDATE in
    let b := bundle_add_str b "latitude" latitude_str in
    let b := bundle_add_str b "longitude" longitude_str in
    let b := bundle_add_str b "altitude" longitude_str in
    r <- sendMessage (Some b) ;;
    emit BundleFree ;;
    ret r
  else ret false.

Definition sendSatellite : M bool :=
  created <- call (bundle_create env) BundleCreate ;;
  if created then
    s <- get_sat_data ;;
    let active_str := snprintf CHAR_BUFF_SIZE (format_d (active s)) in
    let inview_str := snprintf CHAR_BUFF_SIZE (format_d (inview s)) in
    let b := bundle_add_str [] "msg_type" MESSAGE_TYPE_SATELLITES_UPDATE in
    let b := bundle_add_str b "active" active_str in
    let b := bundle_add_str b "inview" inview_str in
    r <- sendMessage (Some b) ;;
    emit BundleFree ;;
    ret r
  else ret false.

Definition initData : M bool :=
  d <- get_location_data ;;
  got <- call (fun tr => location_manager_get_last_location env tr (manager d))
           (GetLastLocation (manager d)) ;;
  match got with
  | Some g => put_gps_data g
  | None => ret tt
  end ;;
  cur_timestamp <- call (time env) GetTime ;;
  g <- get_gps_data ;;
  if MAX_TIME_DIFF <? time_sub cur_timestamp (timestamp g) then ret false
  else
    got <- call (fun tr => gps_status_get_last_satellite env tr (manager d))
             (GetLastSatellite (manager d)) ;;
    match got with
    | Some s => put_sat_data s
    | None => ret tt
    end ;;
    s <- get_sat_data ;;
    (if 0 <? inview s then emit (ForeachSatellitesInView (manager d))
     else ret tt) ;;
    ret true.

Definition initDataSend : M Eina_Bool :=
  ok <- initData ;;
  if negb ok then ret EINA_FALSE
  else
    sat <- sendSatellite ;;
    if negb sat then ret EINA_FALSE
    else
      pos <- sendPosition ;;
      if negb pos then ret EINA_FALSE
      else
        set_data_sent true ;;
        ret EINA_TRUE.

Definition onTimerSend : M Eina_Bool :=
  sent <- initDataSend ;;
  if sent then ret ECORE_CALLBACK_CANCEL
  else ret ECORE_CALLBACK_RENEW.

Definition enableGPS : M bool :=
  d <- get_location_data ;;
  if gpsEnabled d then ret true
  else
    ok <- call (fun tr => location_manager_set_position_updated_cb env tr
                            (manager d) POSITION_UPDATE_INTERVAL)
            (SetPositionUpdatedCb (manager d) POSITION_UPDATE_INTERVAL) ;;
    if negb ok then
      disableGPS ;;
      ret false
    else
      sent <- initDataSend ;;
      (if negb sent then ecore_timer_add SEND_DATA_INTERVAL else ret tt) ;;
      set_gpsEnabled true ;;
      ret true.

Definition enableSat : M bool :=
  d <- get_location_data ;;
  if satEnabled d then ret true
  else
    ok <- call (fun tr => gps_status_set_satellite_updated_cb env tr
                            (manager d) SATELLITE_UPDATE_INTERVAL)
            (SetSatelliteUpdatedCb (manager d) SATELLITE_UPDATE_INTERVAL) ;;
    if negb ok then
      disableSat ;;
      ret false
    else
      set_satEnabled true ;;
      ret true.

Fixpoint logNMEA (samples : nat) : M unit :=
  match samples with
  | O => ret tt
  | S n =>
      d <- get_location_data ;;
      emit (GetNmea (manager d)) ;;
      logNMEA n
  end.

Definition onStateChange (new_state : location_service_state_e) : M unit :=
  set_state new_state ;;
  match new_state with
  | LOCATIONS_SERVICE_ENABLED =>
      enableGPS ;;
      c <- gpsConnected ;;
      (if c then enableSat ;; ret tt else ret tt) ;;
      d <- get_location_data ;;
      got <- call (fun tr => location_manager_get_location env tr (manager d))
               (GetLocation (manager d)) ;;
      match got with
      | Some g => put_gps_data g
      | None => ret tt
      end ;;
      got <- call (fun tr => gps_status_get_satellite env tr (manager d))
               (GetSatellite (manager d)) ;;
      match got with
      | Some s => put_sat_data s
      | None => ret tt
      end ;;
      logNMEA 1
  | LOCATIONS_SERVICE_DISABLED =>
      disableSat ;;
      disableGPS
  | LOCATIONS_SERVICE_OTHER _ => ret tt
  end.

Definition onPositionChange (latitude longitude altitude : float)
    (timestamp : time_t) : M unit :=
  g <- get_gps_data ;;
  put_gps_data
    {| altitude := altitude; latitude := latitude; longitude := longitude;
       climb := climb g; direction := direction g; speed := speed g;
       horizontal := horizontal g; vertical := vertical g; level := level g;
       timestamp := timestamp |} ;;
  curr_timestamp <- call (time env) GetTime ;;
  c <- gpsConnected ;;
  (if c then enableSat ;; ret tt else ret tt) ;;
  d <- get_location_data ;;
  if data_sent d && (time_sub curr_timestamp timestamp <? MAX_TIME_DIFF) then
    sendPosition ;;
    ret tt
  else ret tt.

Definition onSatelliteChange (num_active num_inview : Z) (timestamp : time_t)
    : M unit :=
  put_sat_data
    {| active := num_active; inview := num_inview;
       sat_timestamp := timestamp |} ;;
  d <- get_location_data ;;
  (if 0 <? num_inview then emit (ForeachSatellitesInView (manager d))
   else ret tt) ;;
  if data_sent d then
    sendSatellite ;;
    ret tt
  else ret tt.

Definition locationInitialize : M bool :=
  gpsConnected ;;
  created <- call (location_manager_create env) LocationManagerCreate ;;
  match created with
  | None => ret false
  | Some h =>
      set_manager (Some h) ;;
      d <- get_location_data ;;
      ok <- call (fun tr => location_manager_set_service_state_changed_cb env tr (manager d))
              (SetServiceStateChangedCb (manager d)) ;;
      if negb ok then
        locationFinalize ;;
        ret false
      else
        call (fun tr => location_manager_start env tr (manager d))
          (LocationManagerStart (manager d)) ;;
        checkRemotePort ;;
        ret true
  end.

(** ** The host event loop

    The ecore main loop runs a pending [onTimerSend] timer and drops it when
    the callback answers [ECORE_CALLBACK_CANCEL]. *)
Definition ecore_timer_fire : M unit :=
  fun w =>
    match timers w with
    | O => (tt, w)
    | S _ =>
        let r := onTimerSend w in
        let w' := snd r in
        if fst r then (tt, w')
        else (tt, {| s_location_data := s_location_data w';
                     s_gps_data := s_gps_data w'; s_sat_data := s_sat_data w';
                     trace := trace w'; timers := Nat.pred (timers w') |})
    end.

(** What the service's host can make the controller do: the three entry
    points of [location_manager.h], the three provider callbacks, the
    warm-start and the retry timer. *)
Inductive operation : Type :=
| OpInitialize
| OpStop
| OpFinalize
| OpStateChange (new_state : location_service_state_e)
| OpPositionChange (latitude longitude altitude : float) (timestamp : time_t)
| OpSatelliteChange (num_active num_inview : Z) (timestamp : time_t)
| OpInitDataSend
| OpTimer.

Definition step (op : operation) (w : world) : world :=
  match op with
  | OpInitialize => snd (locationInitialize w)
  | OpStop => snd (locationStop w)
  | OpFinalize => snd (locationFinalize w)
  | OpStateChange s => snd (onStateChange s w)
  | OpPositionChange la lo al ts => snd (onPositionChange la lo al ts w)
  | OpSatelliteChange a i ts => snd (onSatelliteChange a i ts w)
  | OpInitDataSend => snd (initDataSend w)
  | OpTimer => snd (ecore_timer_fire w)
  end.

Definition run (ops : list operation) (w : world) : world :=
  fold_left (fun acc op => step op acc) ops w.

End Controller.

(** ** Concrete platforms

    Oracles the examples below run the controller against. *)

Definition reading (alt lat lon : float) (ts : time_t) : gps_data :=
  {| altitude := alt; latitude := lat; longitude := lon; climb := 0.0;
     direction := 0.0; speed := 0.0; horizontal := 0.0; vertical := 0.0;
     level := 0; timestamp := ts |}.

(** The reading of the spec's round-trip scenario. *)
Definition seoul (ts : time_t) : gps_data := reading 50.2 37.5 127.0 ts.

(** Whether a call was given a handle that is not [NULL]. *)
Definition given (m : option location_manager_h) : bool :=
  match m with
  | Some _ => true
  | None => false
  end.

Definition answer_if {A : Type} (m : option location_manager_h) (a : A)
    : option A :=
  if given m then Some a else None.

(** A platform on which every call that is given a handle succeeds, and
    every call given [NULL] is refused. It creates handle [1]; the sensor is
    connected; the peer's port exists iff [peer]; a bundle is created iff
    [bundles]; the provider's last known fix is [seoul last_time], its
    current fix [seoul fix_time], with two of five satellites active; the
    clock stands at [now]. *)
Definition steady (peer bundles : bool) (last_time fix_time now : time_t)
    : oracle :=
  {| runtime_info_gps_status := fun _ => RUNTIME_INFO_GPS_STATUS_CONNECTED;
     location_manager_create := fun _ => Some 1%positive;
     location_manager_set_service_state_changed_cb := fun _ m => given m;
     location_manager_start := fun _ m => given m;
     location_manager_set_position_updated_cb := fun _ m _ => given m;
     gps_status_set_satellite_updated_cb := fun _ m _ => given m;
     location_manager_get_location :=
       fun _ m => answer_if m (seoul fix_time);
     location_manager_get_last_location :=
       fun _ m => answer_if m (seoul last_time);
     gps_status_get_satellite :=
       fun _ m =>
         answer_if m {| active := 2; inview := 5; sat_timestamp := fix_time |};
     gps_status_get_last_satellite :=
       fun _ m =>
         answer_if m {| active := 2; inview := 5; sat_timestamp := last_time |};
     message_port_check_remote_port := fun _ _ _ => Some peer;
     bundle_create := fun _ => bundles;
     message_port_send_message := fun _ _ _ _ => true;
     time := fun _ => now |}.

Definition is_SetPositionUpdatedCb (e : event) : bool :=
  match e with
  | SetPositionUpdatedCb _ _ _ => true
  | _ => false
  end.

(** As [steady true true now now now], but the provider refuses the first
    registration of the position callback and accepts the later ones. *)
Definition refuses_once (now : time_t) : oracle :=
  let p := steady true true now now now in
  {| runtime_info_gps_status := runtime_info_gps_status p;
     location_manager_create := location_manager_create p;
     location_manager_set_service_state_changed_cb :=
       location_manager_set_service_state_changed_cb p;
     location_manager_start := location_manager_start p;
     location_manager_set_position_updated_cb :=
       fun tr m _ => given m && existsb is_SetPositionUpdatedCb tr;
     gps_status_set_satellite_updated_cb :=
       gps_status_set_satellite_updated_cb p;
     location_manager_get_location := location_manager_get_location p;
     location_manager_get_last_location :=
       location_manager_get_last_location p;
     gps_status_get_satellite := gps_status_get_satellite p;
     gps_status_get_last_satellite := gps_status_get_last_satellite p;
     message_port_check_remote_port := message_port_check_remote_port p;
     bundle_create := bundle_create p;
     message_port_send_message := message_port_send_message p;
     time := time p |}.

(** The scenario of the examples: a peer listens, the sensor is connected,
    the clock stands at 1000, the provider's current fix is of that second
    and its last known fix 100 seconds old. *)
Definition field : oracle := steady true true 900 1000 1000.

(** The service after [locationInitialize]. *)
Definition initialized : world := run field [OpInitialize] initial_world.

(** ... after the provider then reported [LOCATIONS_SERVICE_ENABLED]: the
    warm-start found the last fix expired and the retry timer is pending. *)
Definition subscribed : world :=
  run field [OpInitialize; OpStateChange LOCATIONS_SERVICE_ENABLED]
    initial_world.

(** ... after [locationFinalize] then ran. *)
Definition finalized : world := step field OpFinalize subscribed.

(** ... after the position callback delivered the spec's example reading
    to the initialized service. *)
Definition located : world :=
  step field (OpPositionChange 37.5 127.0 50.2 1000) initialized.

(** The service initialized on a platform that refuses the first
    registration of the position callback. *)
Definition refused_once : world :=
  run (refuses_once 1000) [OpInitialize] initial_world.

(** ** Reading a history *)

(** The provider handle a call was given, when it was given one that is not
    [NULL]. *)
Definition event_handle (e : event) : option location_manager_h :=
  match e with
  | SetServiceStateChangedCb m _ => m
  | UnsetServiceStateChangedCb h => Some h
  | LocationManagerStart m _ => m
  | LocationManagerStop h => Some h
  | LocationManagerDestroy h => Some h
  | SetPositionUpdatedCb m _ _ => m
  | UnsetPositionUpdatedCb h => Some h
  | SetSatelliteUpdatedCb m _ _ => m
  | UnsetSatelliteUpdatedCb h => Some h
  | GetLocation m _ => m
  | GetLastLocation m _ => m
  | GetSatellite m _ => m
  | GetLastSatellite m _ => m
  | ForeachSatellitesInView m => m
  | GetNmea m => m
  | _ => None
  end.

(** A registration of the position callback that the provider accepted. *)
Definition position_registered (e : event) : bool :=
  match e with
  | SetPositionUpdatedCb _ _ ok => ok
  | _ => false
  end.

(** An attempt to deliver a message over the port. *)
Definition is_SendMessage (e : event) : bool :=
  match e with
  | SendMessage _ _ _ _ => true
  | _ => false
  end.

(** The platform calls [locationFinalize] makes on a live handle, in order. *)
Definition teardown (h : location_manager_h) : list event :=
  [UnsetSatelliteUpdatedCb h; UnsetPositionUpdatedCb h;
   UnsetServiceStateChangedCb h; LocationManagerStop h;
   LocationManagerDestroy h].

(** The world after more platform calls, nothing else changed. *)
Definition record_events (w : world) (evs : list event) : world :=
  {| s_location_data := s_location_data w; s_gps_data := s_gps_data w;
     s_sat_data := s_sat_data w; trace := trace w ++ evs;
     timers := timers w |}.

(** The platform calls made between [w] and a later [w']. *)
Definition emitted (w w' : world) : list event :=
  skipn (List.length (trace w)) (trace w').

(** The four runtime-info queries of [gpsConnected], the integer one
    answering [status]. *)
Definition sensor_queries (status : Z) : list event :=
  [RuntimeInfoGetValueBool RUNTIME_INFO_KEY_LOCATION_SERVICE_ENABLED;
   RuntimeInfoGetValueInt RUNTIME_INFO_KEY_GPS_STATUS status;
   RuntimeInfoGetValueBool RUNTIME_INFO_KEY_WIFI_HOTSPOT_ENABLED;
   RuntimeInfoGetValueBool RUNTIME_INFO_KEY_BLUETOOTH_ENABLED].

(** [s_location_data] as [locationFinalize] leaves it. *)
Definition torn_down (d : location_data) : location_data :=
  {| gpsEnabled := false; satEnabled := false; manager := None;
     state := state d; connected := connected d; data_sent := data_sent d |}.

(** What [initData] compares: the timestamp [s_gps_data] holds once
    [location_manager_get_last_location] has answered, and the clock read
    right after it. *)
Definition warm_start_fix (env : oracle) (w : world) : option gps_data :=
  location_manager_get_last_location env (trace w) (manager (s_location_data w)).

Definition warm_start_timestamp (env : oracle) (w : world) : time_t :=
  match warm_start_fix env w with
  | Some g => timestamp g
  | None => timestamp (s_gps_data w)
  end.

Definition warm_start_clock (env : oracle) (w : world) : time_t :=
  time env
    (trace w ++ [GetLastLocation (manager (s_location_data w)) (warm_start_fix env w)]).

(** ** A program logic for the monad

    [keeps I Q m]: started where [s_location_data] satisfies [I], [m] ends
    where it does again, and every platform call [m] made satisfies [Q]. *)
Definition keeps {A : Type} (I : location_data -> Prop) (Q : event -> Prop)
    (m : M A) : Prop :=
  forall w, I (s_location_data w) ->
    I (s_location_data (snd (m w))) /\
    exists evs, trace (snd (m w)) = trace w ++ evs /\ Forall Q evs.

(** The latch of the warm-start flag. *)
Definition latched (d : location_data) : Prop := data_sent d = true.

(** No provider handle is held. *)
Definition unmanaged (d : location_data) : Prop := manager d = None.

(** The warm-start flag is clear. *)
Definition unsent (d : location_data) : Prop := data_sent d = false.

(** ** The service application ([andygmpub-gps.c])

    The callbacks [main] hands to [service_app_main] and registers with
    [service_app_add_event_handler]; the platform's main loop calls them. *)

Section ServiceApp.

Variable env : oracle.

Definition onServiceCreate : M bool := locationInitialize env.

Definition onServiceTerminate : M unit := locationFinalize.

Definition onServiceControl : M unit := ret tt.

Definition onLowBattery : M unit := locationStop.

Definition onLowMemory : M unit := ret tt.

Definition onLangChange : M unit := ret tt.

Definition onRegionChange : M unit := ret tt.

(** The system events [main] registers a handler for. *)
Inductive app_event_type_e : Type :=
| APP_EVENT_LOW_BATTERY
| APP_EVENT_LOW_MEMORY
| APP_EVENT_LANGUAGE_CHANGED
| APP_EVENT_REGION_FORMAT_CHANGED.

(** What the main loop set up by [main] can raise. *)
Inductive signal : Type :=
| ServiceCreate
| ServiceTerminate
| ServiceControl
| AppEvent (e : app_event_type_e).

(** [main]'s wiring: the callback that runs on each signal. *)
Definition deliver (s : signal) : M unit :=
  match s with
  | ServiceCreate => onServiceCreate ;; ret tt
  | ServiceTerminate => onServiceTerminate
  | ServiceControl => onServiceControl
  | AppEvent APP_EVENT_LOW_BATTERY => onLowBattery
  | AppEvent APP_EVENT_LOW_MEMORY => onLowMemory
  | AppEvent APP_EVENT_LANGUAGE_CHANGED => onLangChange
  | AppEvent APP_EVENT_REGION_FORMAT_CHANGED => onRegionChange
  end.

End ServiceApp.

(** ** More readings of a history and of an operation *)

(** The operations the platform starts on its own once the service runs:
    the provider's callbacks, the warm-start and the retry timer. *)
Definition is_callback (op : operation) : bool :=
  match op with
  | OpStateChange _ | OpPositionChange _ _ _ _ | OpSatelliteChange _ _ _
  | OpInitDataSend | OpTimer => true
  | OpInitialize | OpStop | OpFinalize => false
  end.

Definition is_OpInitialize (op : operation) : bool :=
  match op with
  | OpInitialize => true
  | _ => false
  end.

(** An operation as a computation of the monad. *)
Definition perform (env : oracle) (op : operation) : M unit :=
  fun w => (tt, step env op w).

(** A call that subscribes to something: a callback registration with the
    provider, or a timer. *)
Definition subscribes (e : event) : bool :=
  match e with
  | SetPositionUpdatedCb _ _ _ | SetSatelliteUpdatedCb _ _ _
  | EcoreTimerAdd _ => true
  | _ => false
  end.

(** The call concerns handle [h] or no handle at all. *)
Definition only_handle (h : location_manager_h) (e : event) : Prop :=
  event_handle e = None \/ event_handle e = Some h.

(** [s_location_data] with the warm-start flag set. *)
Definition sent_once (d : location_data) : location_data :=
  {| gpsEnabled := gpsEnabled d; satEnabled := satEnabled d;
     manager := manager d; state := state d; connected := connected d;
     data_sent := true |}.

(** A C [int]. *)
Definition INT_MIN : Z := - 2 ^ 31.
Definition INT_MAX : Z := 2 ^ 31 - 1.

(** [holds P m]: [m] keeps the property [P] of the whole state. *)
Definition holds {A : Type} (P : world -> Prop) (m : M A) : Prop :=
  forall w, P w -> P (snd (m w)).

(** A registration of the satellite callback that the provider accepted. *)
Definition satellite_registered (e : event) : bool :=
  match e with
  | SetSatelliteUpdatedCb _ _ ok => ok
  | _ => false
  end.

Definition is_SetSatelliteUpdatedCb (e : event) : bool :=
  match e with
  | SetSatelliteUpdatedCb _ _ _ => true
  | _ => false
  end.

(** A fetch of the provider's current position or satellite status. *)
Definition is_fetch (e : event) : bool :=
  match e with
  | GetLocation _ _ | GetSatellite _ _ => true
  | _ => false
  end.

(** The handle held is [m] and the service state recorded is enabled. *)
Definition enabled_on (m : option location_manager_h) (d : location_data)
    : Prop :=
  manager d = m /\ state d = LOCATIONS_SERVICE_ENABLED.

(** [P] of the pending timers and of [s_location_data]. *)
Definition framed (n : nat) (d : location_data) (w : world) : Prop :=
  timers w = n /\ s_location_data w = d.

(** [P] of the two readings. *)
Definition readings (g : gps_data) (s : sat_data) (w : world) : Prop :=
  s_gps_data w = g /\ s_sat_data w = s.

(** What the receiver of a payload reads under [key] as a decimal integer. *)
Definition bundle_get_int (b : bundle) (key : string) : option Z :=
  match bundle_get_str b key with
  | Some s => option_map Z.of_int (NilZero.int_of_string s)
  | None => None
  end.

(** ** More platforms and states for the examples *)

(** As [field] with a fresh last known fix: the warm-start succeeds. *)
Definition live : oracle := steady true true 1000 1000 1000.

Definition live_initialized : world := run live [OpInitialize] initial_world.

(** [s_location_data] with the warm-start flag cleared. *)
Definition not_sent (d : location_data) : location_data :=
  {| gpsEnabled := gpsEnabled d; satEnabled := satEnabled d;
     manager := manager d; state := state d; connected := connected d;
     data_sent := false |}.

(** [live_initialized] but for a clear warm-start flag: the handle is held
    and the peer's port was found, so a reading given to a callback is kept
    from the peer by the flag alone. *)
Definition muted : world :=
  {| s_location_data := not_sent (s_location_data live_initialized);
     s_gps_data := s_gps_data live_initialized;
     s_sat_data := s_sat_data live_initialized;
     trace := trace live_initialized;
     timers := timers live_initialized |}.

(** As [live] with no peer port. *)
Definition lonely : oracle := steady false true 1000 1000 1000.

Definition unheard : world := run lonely [OpInitialize] initial_world.

Definition is_LocationManagerCreate (e : event) : bool :=
  match e with
  | LocationManagerCreate _ => true
  | _ => false
  end.

(** As [live], but every creation hands out a new handle: 1, 2, ... *)
Definition reissuing : oracle :=
  {| runtime_info_gps_status := runtime_info_gps_status live;
     location_manager_create :=
       fun tr =>
         Some (Pos.of_succ_nat
                 (List.length (filter is_LocationManagerCreate tr)));
     location_manager_set_service_state_changed_cb :=
       location_manager_set_service_state_changed_cb live;
     location_manager_start := location_manager_start live;
     location_manager_set_position_updated_cb :=
       location_manager_set_position_updated_cb live;
     gps_status_set_satellite_updated_cb :=
       gps_status_set_satellite_updated_cb live;
     location_manager_get_location := location_manager_get_location live;
     location_manager_get_last_location :=
       location_manager_get_last_location live;
     gps_status_get_satellite := gps_status_get_satellite live;
     gps_status_get_last_satellite := gps_status_get_last_satellite live;
     message_port_check_remote_port := message_port_check_remote_port live;
     bundle_create := bundle_create live;
     message_port_send_message := message_port_send_message live;
     time := time live |}.

Definition first_issue : world := run reissuing [OpInitialize] initial_world.

(** * Proofs *)

(** ** Time differences *)

Lemma time_wrap_exact (z : Z) : TIME_MIN <= z <= TIME_MAX -> time_wrap z = z.
Proof.
  unfold TIME_MIN, TIME_MAX, time_wrap. intros Hz.
  rewrite Z.mod_small by lia. lia.
Qed.

Lemma time_sub_exact (a b : time_t) :
  TIME_MIN <= a - b <= TIME_MAX -> time_sub a b = a - b.
Proof. apply time_wrap_exact. Qed.

(** ** Rules of the program logic *)

Section KeepsRules.

Variable I : location_data -> Prop.
Variable Q : event -> Prop.

Lemma keeps_ret {A : Type} (a : A) : keeps I Q (ret a).
Proof.
  intros w Hw. split; [exact Hw|].
  exists []. split; [symmetry; apply app_nil_r | constructor].
Qed.

Lemma keeps_bind {A B : Type} (m : M A) (k : A -> M B) :
  keeps I Q m -> (forall a, keeps I Q (k a)) -> keeps I Q (bind m k).
Proof.
  intros Hm Hk w Hw. unfold bind.
  destruct (Hm w Hw) as [Hi [evs1 [Ht1 Hq1]]].
  destruct (m w) as [a w1]. cbn [fst snd] in *.
  destruct (Hk a w1 Hi) as [Hi2 [evs2 [Ht2 Hq2]]].
  split; [exact Hi2|].
  exists (evs1 ++ evs2). split.
  - rewrite Ht2, Ht1. symmetry. apply app_assoc.
  - apply Forall_app. split; assumption.
Qed.

(** Reading [s_location_data] hands the continuation a record that
    satisfies the invariant. *)
Lemma keeps_bind_location {B : Type} (k : location_data -> M B) :
  (forall d, I d -> keeps I Q (k d)) -> keeps I Q (bind get_location_data k).
Proof.
  intros Hk w Hw. unfold bind, get_location_data.
  apply Hk; exact Hw.
Qed.

Lemma keeps_bind_gps {B : Type} (k : gps_data -> M B) :
  (forall g, keeps I Q (k g)) -> keeps I Q (bind get_gps_data k).
Proof.
  intros Hk w Hw. unfold bind, get_gps_data. apply Hk; exact Hw.
Qed.

Lemma keeps_bind_sat {B : Type} (k : sat_data -> M B) :
  (forall s, keeps I Q (k s)) -> keeps I Q (bind get_sat_data k).
Proof.
  intros Hk w Hw. unfold bind, get_sat_data. apply Hk; exact Hw.
Qed.

Lemma keeps_put_location (d : location_data) :
  I d -> keeps I Q (put_location_data d).
Proof.
  intros Hd w _. cbn. split; [exact Hd|].
  exists []. split; [symmetry; apply app_nil_r | constructor].
Qed.

Lemma keeps_put_gps (g : gps_data) : keeps I Q (put_gps_data g).
Proof.
  intros w Hw. cbn. split; [exact Hw|].
  exists []. split; [symmetry; apply app_nil_r | constructor].
Qed.

Lemma keeps_put_sat (s : sat_data) : keeps I Q (put_sat_data s).
Proof.
  intros w Hw. cbn. split; [exact Hw|].
  exists []. split; [symmetry; apply app_nil_r | constructor].
Qed.

Lemma keeps_emit (e : event) : Q e -> keeps I Q (emit e).
Proof.
  intros He w Hw. cbn. split; [exact Hw|].
  exists [e]. split; [reflexivity | constructor; [exact He | constructor]].
Qed.

Lemma keeps_call {A : Type} (answer : list event -> A) (log : A -> event) :
  (forall a, Q (log a)) -> keeps I Q (call answer log).
Proof.
  intros He w Hw. cbn. split; [exact Hw|].
  exists [log (answer (trace w))].
  split; [reflexivity | constructor; [apply He | constructor]].
Qed.

Lemma keeps_ecore_timer_add (interval : float) :
  Q (EcoreTimerAdd interval) -> keeps I Q (ecore_timer_add interval).
Proof.
  intros He w Hw. cbn. split; [exact Hw|].
  exists [EcoreTimerAdd interval].
  split; [reflexivity | constructor; [exact He | constructor]].
Qed.

End KeepsRules.

(** One step through the body of a function: a rule of the logic, or a case
    split on what a branch tests. *)
Ltac keeps_step :=
  lazymatch goal with
  | |- keeps _ _ (ret _) => apply keeps_ret
  | |- keeps _ _ (bind get_location_data _) =>
      apply keeps_bind_location; intros ? ?
  | |- keeps _ _ (bind get_gps_data _) => apply keeps_bind_gps; intro
  | |- keeps _ _ (bind get_sat_data _) => apply keeps_bind_sat; intro
  | |- keeps _ _ (bind _ _) => apply keeps_bind; [ | intro ]
  | |- keeps _ _ (put_location_data _) => apply keeps_put_location
  | |- keeps _ _ (put_gps_data _) => apply keeps_put_gps
  | |- keeps _ _ (put_sat_data _) => apply keeps_put_sat
  | |- keeps _ _ (emit _) => apply keeps_emit
  | |- keeps _ _ (call _ _) => apply keeps_call; intro
  | |- keeps _ _ (ecore_timer_add _) => apply keeps_ecore_timer_add
  | |- keeps _ _ (match ?x with _ => _ end) => destruct x eqn:?
  end.

Ltac unfold_controller :=
  unfold locationInitialize, locationStop, locationFinalize, onStateChange,
    onPositionChange, onSatelliteChange, onTimerSend, enableGPS, enableSat,
    initDataSend, initData, sendPosition, sendSatellite, sendMessage,
    checkRemotePort, gpsConnected, disableGPS, disableSat, set_gpsEnabled,
    set_satEnabled, set_manager, set_state, set_connected, set_data_sent;
  cbn [logNMEA].

(** ** The latch on [data_sent] *)

Ltac latch_side :=
  try solve [ exact Logic.I | unfold latched in *; cbn; first [assumption | reflexivity] ].

Lemma step_latched (env : oracle) (op : operation) :
  forall w, latched (s_location_data w) ->
            latched (s_location_data (step env op w)).
Proof.
  assert (Hk : forall A (m : M A), keeps latched (fun _ => True) m ->
             forall w, latched (s_location_data w) ->
                       latched (s_location_data (snd (m w)))).
  { intros A m Hm w Hw. apply (Hm w Hw). }
  assert (Hsend : keeps latched (fun _ => True) (initDataSend env)).
  { unfold_controller. repeat (keeps_step; latch_side). }
  destruct op; cbn [step].
  - apply Hk. unfold_controller. repeat (keeps_step; latch_side).
  - apply Hk. unfold_controller. repeat (keeps_step; latch_side).
  - apply Hk. unfold_controller. repeat (keeps_step; latch_side).
  - apply Hk. unfold_controller. repeat (keeps_step; latch_side).
  - apply Hk. unfold_controller. repeat (keeps_step; latch_side).
  - apply Hk. unfold_controller. repeat (keeps_step; latch_side).
  - apply Hk. exact Hsend.
  - intros w Hw. unfold ecore_timer_fire. destruct (timers w); [exact Hw|].
    assert (Ht : latched (s_location_data (snd (onTimerSend env w)))).
    { apply Hk; [|exact Hw]. unfold onTimerSend.
      apply keeps_bind; [exact Hsend|]. intro a. destruct a; apply keeps_ret. }
    destruct (fst (onTimerSend env w)); cbn; exact Ht.
Qed.

(** C4. Along every sequence of operations (initialize, stop, finalize, the
    three provider callbacks, the warm-start, the retry timer), against every
    platform and from every state: once [data_sent] is true after some
    operations, it is true after any further ones. No operation assigns
    false to it. *)
Theorem data_sent_latch (env : oracle) (w : world)
    (before after : list operation) :
  data_sent (s_location_data (run env before w)) = true ->
  data_sent (s_location_data (run env (before ++ after) w)) = true.
Proof.
  unfold run. rewrite fold_left_app.
  generalize (fold_left (fun acc op => step env op acc) before w).
  induction after as [|op after IH]; intros w1 Hw1; cbn [fold_left].
  - exact Hw1.
  - apply IH. apply step_latched. exact Hw1.
Qed.

Lemma data_sent_latch_witness :
  data_sent
    (s_location_data
       (run field [OpInitialize; OpStateChange LOCATIONS_SERVICE_ENABLED]
          initial_world)) = true /\
  data_sent
    (s_location_data
       (run field
          ([OpInitialize; OpStateChange LOCATIONS_SERVICE_ENABLED] ++
           [OpPositionChange 37.5 127.0 50.2 1003;
            OpStateChange LOCATIONS_SERVICE_DISABLED; OpTimer; OpFinalize])
          initial_world)) = true.
Proof.
  split; [reflexivity|].
  apply (data_sent_latch field initial_world
           [OpInitialize; OpStateChange LOCATIONS_SERVICE_ENABLED]).
  reflexivity.
Defined.

(** ** Teardown *)

(** C7. [locationFinalize] always returns. It leaves the provider handle
    cleared; the platform calls it makes are the teardown of the handle it
    found, none when it found no handle (as when [locationInitialize] never
    succeeded); and run a second time in a row it changes nothing and makes
    no platform call, so nothing is unregistered or destroyed twice. *)
Theorem locationFinalize_idempotent (w : world) :
  let w1 := snd (locationFinalize w) in
  manager (s_location_data w1) = None /\
  trace w1 = trace w ++ match manager (s_location_data w) with
                        | Some h => teardown h
                        | None => []
                        end /\
  locationFinalize w1 = (tt, w1).
Proof.
  destruct w as [[gps sat [h|] st conn sent] g s tr tm];
    unfold locationFinalize, disableSat, disableGPS, set_satEnabled,
      set_gpsEnabled, set_manager, bind, ret, emit, get_location_data,
      put_location_data, teardown; cbn.
  - repeat split. rewrite <- !app_assoc. reflexivity.
  - repeat split. symmetry. apply app_nil_r.
Qed.

(** C9. On [LOCATIONS_SERVICE_DISABLED], whatever [gpsEnabled] and
    [satEnabled] hold, [onStateChange] unregisters the satellite callback
    and then the position callback: these are its only platform calls, in
    that order, on the handle it holds (with no handle there is nothing to
    unregister), and both flags end false. *)
Theorem onStateChange_disabled_order (env : oracle) (w : world) :
  let w1 := snd (onStateChange env LOCATIONS_SERVICE_DISABLED w) in
  trace w1 = trace w ++ match manager (s_location_data w) with
                        | Some h => [UnsetSatelliteUpdatedCb h;
                                     UnsetPositionUpdatedCb h]
                        | None => []
                        end /\
  satEnabled (s_location_data w1) = false /\
  gpsEnabled (s_location_data w1) = false.
Proof.
  destruct w as [[gps sat [h|] st conn sent] g s tr tm];
    unfold onStateChange, disableSat, disableGPS, set_satEnabled,
      set_gpsEnabled, set_state, bind, ret, emit, get_location_data,
      put_location_data; cbn.
  - repeat split. rewrite <- !app_assoc. reflexivity.
  - repeat split. symmetry. apply app_nil_r.
Qed.

(** ** Sending with no peer *)

Lemma sendMessage_no_peer (env : oracle) (b : option bundle) (w : world) :
  connected (s_location_data w) = false -> sendMessage env b w = (true, w).
Proof.
  intros Hc. unfold sendMessage, bind, get_location_data.
  rewrite Hc. reflexivity.
Qed.

(** C10, as the code has it. With [connected] false, [sendMessage] returns
    true and makes no platform call, and [sendPosition] and [sendSatellite]
    return whether [bundle_create] gave them a bundle: true when it did,
    false when it did not. Either way their only platform calls are the
    creation of the bundle and, of a created one, its release: no message is
    sent, and the three records are unchanged. *)
Theorem send_without_peer (env : oracle) (w : world) :
  connected (s_location_data w) = false ->
  let created := bundle_create env (trace w) in
  let calls := if created then [BundleCreate true; BundleFree]
               else [BundleCreate false] in
  (forall b, sendMessage env b w = (true, w)) /\
  sendPosition env w = (created, record_events w calls) /\
  sendSatellite env w = (created, record_events w calls).
Proof.
  intros Hc created calls. split; [|split].
  - intro b. apply sendMessage_no_peer. exact Hc.
  - unfold sendPosition, bind, call, get_gps_data.
    subst calls created. destruct (bundle_create env (trace w)); cbv beta iota.
    + rewrite sendMessage_no_peer by (cbn; exact Hc).
      unfold emit, ret, record_events. cbn.
      rewrite <- app_assoc. reflexivity.
    + reflexivity.
  - unfold sendSatellite, bind, call, get_sat_data.
    subst calls created. destruct (bundle_create env (trace w)); cbv beta iota.
    + rewrite sendMessage_no_peer by (cbn; exact Hc).
      unfold emit, ret, record_events. cbn.
      rewrite <- app_assoc. reflexivity.
    + reflexivity.
Qed.

Lemma send_without_peer_witness :
  connected (s_location_data initial_world) = false /\
  sendPosition (steady false true 0 0 0) initial_world =
    (true, record_events initial_world [BundleCreate true; BundleFree]).
Proof.
  split; [reflexivity|].
  apply (send_without_peer (steady false true 0 0 0) initial_world).
  reflexivity.
Defined.

(** With no peer and a platform that creates no bundle, [sendPosition] and
    [sendSatellite] return false. *)
Lemma send_without_peer_nor_bundle :
  connected (s_location_data initial_world) = false /\
  fst (sendPosition (steady false false 0 0 0) initial_world) = false /\
  fst (sendSatellite (steady false false 0 0 0) initial_world) = false.
Proof. repeat split. Qed.

(** ** Equations of the straight-line functions *)

Lemma emitted_app (w w' : world) (evs : list event) :
  trace w' = trace w ++ evs -> emitted w w' = evs.
Proof.
  intros H. unfold emitted. rewrite H.
  rewrite skipn_app, skipn_all, Nat.sub_diag. reflexivity.
Qed.

Lemma gpsConnected_eq (env : oracle) (w : world) :
  let status :=
    runtime_info_gps_status env
      (trace w ++
       [RuntimeInfoGetValueBool RUNTIME_INFO_KEY_LOCATION_SERVICE_ENABLED]) in
  gpsConnected env w =
    (status =? RUNTIME_INFO_GPS_STATUS_CONNECTED,
     record_events w (sensor_queries status)).
Proof.
  unfold gpsConnected, bind, emit, call, ret, record_events, sensor_queries.
  cbn. rewrite <- !app_assoc. reflexivity.
Qed.

Lemma locationFinalize_eq (w : world) :
  locationFinalize w =
    (tt, {| s_location_data := torn_down (s_location_data w);
            s_gps_data := s_gps_data w; s_sat_data := s_sat_data w;
            trace := trace w ++ match manager (s_location_data w) with
                                | Some h => teardown h
                                | None => []
                                end;
            timers := timers w |}).
Proof.
  destruct w as [[gps sat [h|] st conn sent] g s tr tm];
    unfold locationFinalize, disableSat, disableGPS, set_satEnabled,
      set_gpsEnabled, set_manager, bind, ret, emit, get_location_data,
      put_location_data, teardown, torn_down; cbn.
  - rewrite <- !app_assoc. reflexivity.
  - rewrite app_nil_r. reflexivity.
Qed.

(** ** Initialization *)

(** Membership in an explicit list of platform calls, by cases. *)
Ltac in_cases H :=
  unfold sensor_queries, teardown in H; cbn [app In] in H;
  repeat (destruct H as [H|H]; try discriminate); try contradiction.

(** C6. [locationInitialize] returns false exactly when the platform
    answers no handle to [location_manager_create], or refuses the
    registration of the state-change callback on the handle it created.
    With no handle nothing but the sensor queries and the creation was
    called and the state is what it was. With the registration refused the
    calls that follow are the teardown of the handle just created, ending
    with its destruction, and the state is the torn-down one: handle cleared,
    both subscriptions off. With the registration accepted the function
    starts the provider, probes the peer's port and returns true whatever
    these two answer, holding the handle. *)
Theorem locationInitialize_result (env : oracle) (w : world) :
  let status :=
    runtime_info_gps_status env
      (trace w ++
       [RuntimeInfoGetValueBool RUNTIME_INFO_KEY_LOCATION_SERVICE_ENABLED]) in
  let queried := trace w ++ sensor_queries status in
  let created := location_manager_create env queried in
  let registered h :=
    location_manager_set_service_state_changed_cb env
      (queried ++ [LocationManagerCreate (Some h)]) (Some h) in
  let r := locationInitialize env w in
  (fst r = false <->
     created = None \/ exists h, created = Some h /\ registered h = false) /\
  match created with
  | None =>
      r = (false,
           record_events w
             (sensor_queries status ++ [LocationManagerCreate None]))
  | Some h =>
      if registered h then
        let accepted :=
          queried ++ [LocationManagerCreate (Some h);
                      SetServiceStateChangedCb (Some h) true] in
        let started := location_manager_start env accepted (Some h) in
        let exist :=
          message_port_check_remote_port env
            (accepted ++ [LocationManagerStart (Some h) started])
            REMOTE_APP_ID REMOTE_PORT in
        fst r = true /\
        trace (snd r) =
          accepted ++ [LocationManagerStart (Some h) started;
                       CheckRemotePort REMOTE_APP_ID REMOTE_PORT exist] /\
        manager (s_location_data (snd r)) = Some h /\
        gpsEnabled (s_location_data (snd r)) = gpsEnabled (s_location_data w) /\
        satEnabled (s_location_data (snd r)) = satEnabled (s_location_data w) /\
        data_sent (s_location_data (snd r)) = data_sent (s_location_data w)
      else
        r = (false,
             {| s_location_data := torn_down (s_location_data w);
                s_gps_data := s_gps_data w; s_sat_data := s_sat_data w;
                trace := queried ++
                         LocationManagerCreate (Some h)
                         :: SetServiceStateChangedCb (Some h) false
                         :: teardown h;
                timers := timers w |})
  end.
Proof.
  intros status queried created registered r.
  assert (Hr : r = locationInitialize env w) by reflexivity.
  clearbody r.
  unfold locationInitialize, bind in Hr.
  rewrite gpsConnected_eq in Hr. cbv beta iota zeta in Hr.
  fold status in Hr.
  unfold call at 1 in Hr. cbn [trace record_events] in Hr.
  fold queried in Hr. fold created in Hr.
  destruct created as [h|] eqn:Hc; cbv beta iota in Hr.
  - unfold set_manager, bind, get_location_data, put_location_data, call in Hr.
    cbn [s_location_data manager trace] in Hr.
    fold (registered h) in Hr.
    destruct (registered h) eqn:Hg; cbn [negb] in Hr; cbv beta iota in Hr.
    + (* registered: start, probe, true *)
      match goal with |- _ /\ ?G => assert (HG : G) end;
        [|split; [|exact HG]; cbv zeta in HG; destruct HG as [Hf _];
          rewrite Hf; split; [discriminate|];
          intros [H|[h' [H1 H2]]]; [discriminate|];
          injection H1 as <-; rewrite Hg in H2; discriminate].
      intros accepted started exist.
      unfold checkRemotePort, bind, call in Hr. cbn [trace] in Hr.
      assert (Ea : (queried ++ [LocationManagerCreate (Some h)]) ++
                   [SetServiceStateChangedCb (Some h) true] = accepted).
      { unfold accepted. rewrite <- app_assoc. reflexivity. }
      rewrite Ea in Hr. fold started in Hr. fold exist in Hr.
      clearbody exist started accepted.
      assert (Ht : fst r = true /\
                trace (snd r) =
                  accepted ++ [LocationManagerStart (Some h) started;
                               CheckRemotePort REMOTE_APP_ID REMOTE_PORT exist] /\
                s_location_data (snd r) =
                  {| gpsEnabled := gpsEnabled (s_location_data w);
                     satEnabled := satEnabled (s_location_data w);
                     manager := Some h;
                     state := state (s_location_data w);
                     connected := match exist with
                                  | Some b => b
                                  | None => connected (s_location_data w)
                                  end;
                     data_sent := data_sent (s_location_data w) |}).
      { destruct exist as [b|];
          unfold set_connected, bind, get_location_data, put_location_data,
            ret in Hr; subst r; cbn; rewrite <- !app_assoc; repeat split. }
      clear Hr. destruct Ht as [Hf [Ht Hd]].
      rewrite Hd. cbn. repeat split; assumption.
    + (* refused: unwind through locationFinalize, false *)
      rewrite locationFinalize_eq in Hr.
      assert (He : r = (false,
                {| s_location_data := torn_down (s_location_data w);
                   s_gps_data := s_gps_data w; s_sat_data := s_sat_data w;
                   trace := queried ++
                            LocationManagerCreate (Some h)
                            :: SetServiceStateChangedCb (Some h) false
                            :: teardown h;
                   timers := timers w |})).
      { subst r. cbn. unfold queried. rewrite <- !app_assoc. reflexivity. }
      split; [|exact He].
      rewrite He. split; [intros _|reflexivity].
      right. exists h. split; [reflexivity | exact Hg].
  - (* no handle: false *)
    assert (He : r = (false,
              record_events w
                (sensor_queries status ++ [LocationManagerCreate None]))).
    { subst r. unfold record_events, queried. cbn.
      rewrite <- !app_assoc. reflexivity. }
    split; [|exact He].
    rewrite He. split; [intros _|reflexivity]. left. reflexivity.
Qed.

(** ** The warm-start *)

Lemma initData_stale (env : oracle) (w : world) :
  MAX_TIME_DIFF < warm_start_clock env w - warm_start_timestamp env w
    <= TIME_MAX ->
  initData env w =
    (false,
     {| s_location_data := s_location_data w;
        s_gps_data := match warm_start_fix env w with
                      | Some g => g
                      | None => s_gps_data w
                      end;
        s_sat_data := s_sat_data w;
        trace := trace w ++
                 [GetLastLocation (manager (s_location_data w))
                    (warm_start_fix env w);
                  GetTime (warm_start_clock env w)];
        timers := timers w |}).
Proof.
  unfold warm_start_clock, warm_start_timestamp, warm_start_fix.
  intros H.
  unfold initData, bind, get_location_data, call.
  assert (Hs : forall a b, MAX_TIME_DIFF < a - b <= TIME_MAX ->
                 (MAX_TIME_DIFF <? time_sub a b) = true).
  { intros a b Hab. rewrite time_sub_exact.
    - apply Z.ltb_lt. lia.
    - unfold TIME_MIN, MAX_TIME_DIFF in *. lia. }
  destruct (location_manager_get_last_location env (trace w)
              (manager (s_location_data w))) as [g|];
    unfold put_gps_data, get_gps_data, ret; cbn in *;
    rewrite (Hs _ _ H); rewrite <- app_assoc; reflexivity.
Qed.

(** C5. A warm-start whose fetched position is older than [MAX_TIME_DIFF]
    (the clock read by [initData] minus the timestamp [s_gps_data] holds
    after the fetch exceeds 30, the difference being one a [time_t] holds)
    fails: [initData] and [initDataSend] return false, [s_location_data],
    and with it [data_sent], is what it was, and the only platform calls are
    the fetch and the reading of the clock: nothing is sent. *)
Theorem initDataSend_stale (env : oracle) (w : world) :
  MAX_TIME_DIFF < warm_start_clock env w - warm_start_timestamp env w
    <= TIME_MAX ->
  let r := initDataSend env w in
  fst (initData env w) = false /\
  fst r = EINA_FALSE /\
  data_sent (s_location_data (snd r)) = data_sent (s_location_data w) /\
  s_location_data (snd r) = s_location_data w /\
  trace (snd r) =
    trace w ++
    [GetLastLocation (manager (s_location_data w)) (warm_start_fix env w);
     GetTime (warm_start_clock env w)].
Proof.
  intros H r. subst r. unfold initDataSend, bind.
  rewrite (initData_stale env w H). cbn [fst snd negb ret s_location_data].
  repeat split.
Qed.

Lemma initDataSend_stale_witness :
  MAX_TIME_DIFF
    < warm_start_clock field initialized - warm_start_timestamp field initialized
    <= TIME_MAX /\
  fst (initDataSend field initialized) = EINA_FALSE /\
  data_sent (s_location_data (snd (initDataSend field initialized))) =
    data_sent (s_location_data initialized).
Proof.
  assert (H : MAX_TIME_DIFF
                < warm_start_clock field initialized
                  - warm_start_timestamp field initialized
                <= TIME_MAX)
    by (vm_compute; split; [reflexivity | discriminate]).
  split; [exact H|].
  split; apply (initDataSend_stale field initialized H).
Defined.

(** ** Enabling the position subscription *)

Lemma enableGPS_enabled (env : oracle) (w : world) :
  gpsEnabled (s_location_data w) = true -> enableGPS env w = (true, w).
Proof.
  intros Hg. unfold enableGPS, bind, get_location_data. rewrite Hg.
  reflexivity.
Qed.

Lemma initDataSend_registers_nothing (env : oracle) :
  keeps (fun _ => True) (fun e => position_registered e = false)
    (initDataSend env).
Proof.
  unfold_controller.
  repeat (keeps_step; try solve [exact Logic.I | reflexivity]).
Qed.

Lemma filter_none {A : Type} (f : A -> bool) (l : list A) :
  Forall (fun a => f a = false) l -> filter f l = [].
Proof.
  induction 1 as [|a l Ha _ IH]; cbn; [reflexivity|].
  rewrite Ha. exact IH.
Qed.

(** What one call of [enableGPS] does, by the state it finds and the
    provider's answer to the registration. *)
Lemma enableGPS_outcome (env : oracle) (w : world) :
  let m := manager (s_location_data w) in
  let ok :=
    location_manager_set_position_updated_cb env (trace w) m
      POSITION_UPDATE_INTERVAL in
  let r := enableGPS env w in
  if gpsEnabled (s_location_data w) then r = (true, w)
  else if ok then
    fst r = true /\
    gpsEnabled (s_location_data (snd r)) = true /\
    exists rest,
      trace (snd r) =
        trace w ++ SetPositionUpdatedCb m POSITION_UPDATE_INTERVAL true :: rest /\
      filter position_registered rest = []
  else
    r = (false,
         {| s_location_data :=
              {| gpsEnabled := false;
                 satEnabled := satEnabled (s_location_data w);
                 manager := m;
                 state := state (s_location_data w);
                 connected := connected (s_location_data w);
                 data_sent := data_sent (s_location_data w) |};
            s_gps_data := s_gps_data w; s_sat_data := s_sat_data w;
            trace := trace w ++
                     SetPositionUpdatedCb m POSITION_UPDATE_INTERVAL false
                     :: match m with
                        | Some h => [UnsetPositionUpdatedCb h]
                        | None => []
                        end;
            timers := timers w |}).
Proof.
  intros m ok r.
  assert (Hr : r = enableGPS env w) by reflexivity.
  assert (Hm : manager (s_location_data w) = m) by reflexivity.
  clearbody r.
  unfold enableGPS, bind, get_location_data in Hr.
  destruct (gpsEnabled (s_location_data w)) eqn:Hg; [exact Hr|].
  unfold call in Hr. fold m in Hr. fold ok in Hr.
  clearbody ok m.
  destruct ok; cbn [negb] in Hr; cbv beta iota in Hr.
  - (* registered; the warm-start registers nothing more *)
    set (w0 := {| s_location_data := s_location_data w;
                  s_gps_data := s_gps_data w; s_sat_data := s_sat_data w;
                  trace := _; timers := timers w |}) in Hr.
    destruct (initDataSend_registers_nothing env w0 Logic.I)
      as [_ [evs [Ht Hq]]].
    destruct (initDataSend env w0) as [sent w'].
    cbn [snd] in Ht.
    destruct sent; unfold ecore_timer_add, set_gpsEnabled, bind,
      get_location_data, put_location_data, ret in Hr; subst r; cbn.
    + split; [reflexivity|]. split; [reflexivity|]. exists evs. split.
      * rewrite Ht. subst w0. cbn. rewrite <- app_assoc. reflexivity.
      * exact (filter_none _ _ Hq).
    + split; [reflexivity|]. split; [reflexivity|].
      exists (evs ++ [EcoreTimerAdd SEND_DATA_INTERVAL]). split.
      * rewrite Ht. subst w0. cbn. rewrite <- !app_assoc. reflexivity.
      * rewrite filter_app, (filter_none _ _ Hq). reflexivity.
  - (* refused: unwind through disableGPS *)
    unfold disableGPS, bind, get_location_data in Hr.
    cbn [s_location_data manager] in Hr. rewrite Hm in Hr.
    destruct m as [h|]; unfold emit, set_gpsEnabled, bind,
      get_location_data, put_location_data, ret in Hr; subst r; cbn;
      rewrite <- ?app_assoc; rewrite ?Hm; reflexivity.
Qed.

(** C8, as the code has it. [enableGPS] returns what it leaves in
    [gpsEnabled]. When a call returns true, a second call in a row returns
    true, changes nothing and makes no platform call; the two calls together
    then register the position callback once when [gpsEnabled] was clear
    before them, and not at all when it was already set. When a call returns
    false, [gpsEnabled] was clear and the provider refused the registration:
    the call made the refused registration and, holding a handle, its
    withdrawal, and nothing else; a second call in a row begins by asking the
    provider for the registration again, and returns and leaves in
    [gpsEnabled] what the provider answers this time. *)
Theorem enableGPS_twice (env : oracle) (w : world) :
  let m := manager (s_location_data w) in
  let r1 := enableGPS env w in
  let w1 := snd r1 in
  let r2 := enableGPS env w1 in
  gpsEnabled (s_location_data w1) = fst r1 /\
  trace w1 = trace w ++ emitted w w1 /\
  if fst r1 then
    r2 = (true, w1) /\
    List.length (filter position_registered (emitted w w1)) =
      if gpsEnabled (s_location_data w) then 0%nat else 1%nat
  else
    let again :=
      location_manager_set_position_updated_cb env (trace w1) m
        POSITION_UPDATE_INTERVAL in
    gpsEnabled (s_location_data w) = false /\
    location_manager_set_position_updated_cb env (trace w) m
      POSITION_UPDATE_INTERVAL = false /\
    emitted w w1 =
      SetPositionUpdatedCb m POSITION_UPDATE_INTERVAL false
      :: match m with
         | Some h => [UnsetPositionUpdatedCb h]
         | None => []
         end /\
    fst r2 = again /\
    gpsEnabled (s_location_data (snd r2)) = again /\
    exists rest,
      emitted w1 (snd r2) =
        SetPositionUpdatedCb m POSITION_UPDATE_INTERVAL again :: rest.
Proof.
  intros m r1 w1 r2.
  pose proof (enableGPS_outcome env w) as H1. cbv zeta in H1.
  fold m in H1. fold r1 in H1.
  destruct (gpsEnabled (s_location_data w)) eqn:Hg.
  - (* already enabled *)
    subst r2 w1. rewrite H1. cbn [fst snd].
    split; [exact Hg|]. split.
    + unfold emitted. rewrite skipn_all. symmetry. apply app_nil_r.
    + split; [apply enableGPS_enabled; exact Hg|].
      unfold emitted. rewrite skipn_all. reflexivity.
  - destruct (location_manager_set_position_updated_cb env (trace w) m
                POSITION_UPDATE_INTERVAL) eqn:Hok.
    + (* registered *)
      destruct H1 as [Hf [Hg1 [rest [Ht Hn]]]].
      fold w1 in Hg1, Ht. rewrite Hf.
      rewrite (emitted_app _ _ _ Ht).
      split; [exact Hg1|]. split; [exact Ht|]. split.
      * apply enableGPS_enabled. exact Hg1.
      * cbn [filter position_registered]. rewrite Hn. reflexivity.
    + (* refused *)
      assert (Hg1 : gpsEnabled (s_location_data w1) = false)
        by (subst w1; rewrite H1; reflexivity).
      assert (Hm1 : manager (s_location_data w1) = m)
        by (subst w1; rewrite H1; reflexivity).
      assert (Ht : trace w1 =
                trace w ++
                SetPositionUpdatedCb m POSITION_UPDATE_INTERVAL false
                :: match m with
                   | Some h => [UnsetPositionUpdatedCb h]
                   | None => []
                   end)
        by (subst w1; rewrite H1; reflexivity).
      assert (Hf : fst r1 = false) by (rewrite H1; reflexivity).
      rewrite Hf. rewrite (emitted_app _ _ _ Ht).
      split; [exact Hg1|]. split; [exact Ht|].
      intros again.
      split; [reflexivity|]. split; [reflexivity|]. split; [reflexivity|].
      pose proof (enableGPS_outcome env w1) as H2. cbv zeta in H2.
      fold r2 in H2. rewrite Hg1, Hm1 in H2. fold again in H2.
      destruct again.
      * destruct H2 as [Hf2 [Hg2 [rest [Ht2 _]]]].
        split; [exact Hf2|]. split; [exact Hg2|].
        exists rest. exact (emitted_app _ _ _ Ht2).
      * rewrite H2. cbn [fst snd s_location_data gpsEnabled].
        split; [reflexivity|]. split; [reflexivity|].
        eexists. unfold emitted. cbn [trace].
        rewrite skipn_app, skipn_all, Nat.sub_diag. reflexivity.
Qed.

Lemma enableGPS_twice_witness :
  fst (enableGPS field initialized) = true /\
  enableGPS field (snd (enableGPS field initialized)) =
    (true, snd (enableGPS field initialized)) /\
  List.length
    (filter position_registered
       (emitted initialized (snd (enableGPS field initialized)))) = 1%nat.
Proof.
  assert (H : fst (enableGPS field initialized) = true) by reflexivity.
  split; [exact H|].
  pose proof (enableGPS_twice field initialized) as T.
  cbv zeta in T. rewrite H in T.
  exact (proj2 (proj2 T)).
Defined.

(** Against a provider that refuses the first registration and accepts the
    second, one call of [enableGPS] leaves [gpsEnabled] clear and two calls
    in a row leave it set. *)
Lemma enableGPS_retry_differs :
  enableGPS (refuses_once 1000) refused_once
    = (false, record_events refused_once
                [SetPositionUpdatedCb (Some 1%positive) 3 false;
                 UnsetPositionUpdatedCb 1%positive]) /\
  gpsEnabled
    (s_location_data (snd (enableGPS (refuses_once 1000) refused_once)))
    = false /\
  gpsEnabled
    (s_location_data
       (snd (enableGPS (refuses_once 1000)
               (snd (enableGPS (refuses_once 1000) refused_once)))))
    = true /\
  gpsEnabled
    (s_location_data
       (snd (enableGPS (refuses_once 1000)
               (snd (enableGPS (refuses_once 1000) refused_once)))))
    <> gpsEnabled
         (s_location_data (snd (enableGPS (refuses_once 1000) refused_once))).
Proof. vm_compute. repeat split. discriminate. Qed.

(** ** The retry timer and teardown *)

Lemma keeps_trace {A : Type} (m : M A) (w : world) :
  keeps (fun _ => True) (fun _ => True) m ->
  exists evs, trace (snd (m w)) = trace w ++ evs.
Proof.
  intros Hm. destruct (Hm w Logic.I) as [_ [evs [Ht _]]]. exists evs. exact Ht.
Qed.

(** The warm-start begins by fetching the last location. *)
Lemma initData_first_call (env : oracle) (w : world) :
  exists rest,
    trace (snd (initData env w)) =
      trace w ++
      GetLastLocation (manager (s_location_data w)) (warm_start_fix env w)
      :: rest.
Proof.
  unfold initData, bind, get_location_data, call, put_gps_data, put_sat_data,
    get_gps_data, get_sat_data, emit, ret, warm_start_fix.
  repeat (cbn [trace s_gps_data s_sat_data s_location_data timers fst snd];
          match goal with
          | |- context [match ?x with _ => _ end] =>
              match type of x with
              | option _ => idtac
              | bool => idtac
              end;
              destruct x
          end);
    cbn [trace snd]; rewrite <- ?app_assoc; cbn [app]; eexists; reflexivity.
Qed.

Lemma initDataSend_first_call (env : oracle) (w : world) :
  exists rest,
    trace (snd (initDataSend env w)) =
      trace w ++
      GetLastLocation (manager (s_location_data w)) (warm_start_fix env w)
      :: rest.
Proof.
  destruct (initData_first_call env w) as [rest1 H1].
  unfold initDataSend. unfold bind at 1.
  destruct (initData env w) as [ok wi]. cbn [snd] in H1.
  match goal with
  | |- context [snd (?k wi)] =>
      destruct (keeps_trace k wi) as [rest2 H2]
  end.
  - unfold_controller. repeat (keeps_step; try exact Logic.I).
  - exists (rest1 ++ rest2). rewrite H2, H1, <- app_assoc. reflexivity.
Qed.

(** With no handle held, the timer callback gives none to the provider. *)
Lemma onTimerSend_unmanaged (env : oracle) :
  keeps unmanaged (fun e => event_handle e = None) (onTimerSend env).
Proof.
  unfold_controller.
  repeat (keeps_step;
          try solve [ reflexivity
                    | unfold unmanaged in *; cbn;
                      first [assumption | congruence] ]).
Qed.

(** C3, as the code has it. [locationFinalize] cancels no timer: the retry
    timers pending before it are pending after it. It clears the handle, so
    a retry timer that fires afterwards runs the warm-start with no handle:
    its first platform call is the fetch of the last location with [NULL],
    and every provider call it makes is given [NULL], never the destroyed
    handle. With no timer pending nothing runs. *)
Theorem finalize_keeps_timer (env : oracle) (w : world) :
  let w1 := snd (locationFinalize w) in
  let evs := emitted w1 (snd (ecore_timer_fire env w1)) in
  timers w1 = timers w /\
  manager (s_location_data w1) = None /\
  trace (snd (ecore_timer_fire env w1)) = trace w1 ++ evs /\
  Forall (fun e => event_handle e = None) evs /\
  match timers w with
  | O => evs = []
  | S _ =>
      exists rest,
        evs = GetLastLocation None
                (location_manager_get_last_location env (trace w1) None)
              :: rest
  end.
Proof.
  intros w1 evs. subst evs.
  assert (Hw1 : timers w1 = timers w /\ manager (s_location_data w1) = None).
  { subst w1. rewrite locationFinalize_eq. split; reflexivity. }
  destruct Hw1 as [Htm Hm]. clearbody w1.
  split; [exact Htm|]. split; [exact Hm|].
  rewrite <- Htm. unfold ecore_timer_fire.
  destruct (timers w1) as [|n].
  - cbn [snd]. rewrite (emitted_app w1 w1 []) by (symmetry; apply app_nil_r).
    split; [symmetry; apply app_nil_r|]. split; [constructor | reflexivity].
  - destruct (onTimerSend_unmanaged env w1 Hm) as [_ [evs [Ht Hq]]].
    assert (Hev : exists rest,
              evs = GetLastLocation None
                      (location_manager_get_last_location env (trace w1) None)
                    :: rest).
    { destruct (initDataSend_first_call env w1) as [rest Hfirst].
      unfold warm_start_fix in Hfirst. rewrite Hm in Hfirst.
      exists rest. apply (app_inv_head (trace w1)).
      rewrite <- Ht, <- Hfirst. unfold onTimerSend, bind.
      destruct (initDataSend env w1) as [[|] ws]; reflexivity. }
    destruct (onTimerSend env w1) as [renew wt]. cbn [fst snd] in *.
    destruct renew; cbn [snd trace]; rewrite (emitted_app w1 _ evs) by exact Ht;
      (split; [exact Ht|]); (split; [exact Hq|]); exact Hev.
Qed.

(** In the field scenario the retry timer scheduled by [enableGPS] is still
    pending after [locationFinalize]; fired, its callback runs the warm-start
    with no handle and sends the satellite and position messages. *)
Lemma retry_timer_outlives_finalize :
  timers subscribed = 1%nat /\
  timers finalized = 1%nat /\
  manager (s_location_data finalized) = None /\
  emitted finalized (step field OpTimer finalized) =
    [GetLastLocation None None; GetTime 1000; GetLastSatellite None None;
     ForeachSatellitesInView None;
     BundleCreate true;
     SendMessage REMOTE_APP_ID REMOTE_PORT
       [("msg_type", "SATELLITES_UPDATE"); ("active", "2"); ("inview", "5")]%string
       true;
     BundleFree;
     BundleCreate true;
     SendMessage REMOTE_APP_ID REMOTE_PORT
       [("msg_type", "POSITION_UPDATE"); ("latitude", "37.500000");
        ("longitude", "127.000000"); ("altitude", "127.000000")]%string
       true;
     BundleFree].
Proof. vm_compute. repeat split. Qed.

(** ** The position payload *)

(** X15. With a peer and a bundle, [sendPosition] makes one send, and in
    the message it hands over "latitude" and "longitude" hold the ["%f"]
    strings of the stored latitude and longitude, and "altitude" holds the
    longitude's string again: the stored altitude is in no message. *)
Lemma sendPosition_payload (env : oracle) (w : world) :
  connected (s_location_data w) = true ->
  bundle_create env (trace w) = true ->
  exists b ok,
    emitted w (snd (sendPosition env w)) =
      [BundleCreate true; SendMessage REMOTE_APP_ID REMOTE_PORT b ok;
       BundleFree] /\
    bundle_get_str b "latitude" =
      Some (snprintf CHAR_BUFF_SIZE (format_f (latitude (s_gps_data w)))) /\
    bundle_get_str b "longitude" =
      Some (snprintf CHAR_BUFF_SIZE (format_f (longitude (s_gps_data w)))) /\
    bundle_get_str b "altitude" =
      Some (snprintf CHAR_BUFF_SIZE (format_f (longitude (s_gps_data w)))).
Proof.
  intros Hc Hb.
  unfold sendPosition, sendMessage, bind, call, get_gps_data,
    get_location_data, emit, ret.
  rewrite Hb. cbn [s_location_data s_gps_data trace]. rewrite Hc.
  cbn [negb snd trace].
  eexists. eexists. split.
  - apply emitted_app. cbn [trace]. rewrite <- !app_assoc. reflexivity.
  - repeat split.
Qed.

(** C1, on the code. The position callback delivers latitude 37.5,
    longitude 127.0, altitude 50.2 to the initialized service, and
    [sendPosition] builds the payload from the stored reading: the message
    it sends holds "127.000000", the longitude's string, under "altitude",
    where the altitude's string is "50.200000". *)
Theorem sendPosition_altitude_is_longitude :
  latitude (s_gps_data located) = 37.5%float /\
  longitude (s_gps_data located) = 127.0%float /\
  altitude (s_gps_data located) = 50.2%float /\
  emitted located (snd (sendPosition field located)) =
    [BundleCreate true;
     SendMessage REMOTE_APP_ID REMOTE_PORT
       [("msg_type", "POSITION_UPDATE"); ("latitude", "37.500000");
        ("longitude", "127.000000"); ("altitude", "127.000000")]%string
       true;
     BundleFree] /\
  snprintf CHAR_BUFF_SIZE (format_f (altitude (s_gps_data located))) =
    "50.200000"%string.
Proof. vm_compute. repeat split. Qed.

(** ** The forwarding gate *)

Ltac gate_side :=
  try solve
    [ reflexivity
    | unfold unsent in *; cbn; assumption
    | unfold unsent in *;
      match goal with
      | Hd : data_sent ?d = false, E : (data_sent ?d && _) = true |- _ =>
          rewrite Hd in E; discriminate E
      | Hd : data_sent ?d = false, E : data_sent ?d = true |- _ =>
          rewrite Hd in E; discriminate E
      end ].

(** X2. From a state in which [data_sent] is false, neither
    [onPositionChange] nor [onSatelliteChange] hands anything to the message
    port, whatever they are given and whatever the platform answers. *)
Lemma callbacks_gated (env : oracle) (w : world) :
  data_sent (s_location_data w) = false ->
  (forall la lo al ts,
     Forall (fun e => is_SendMessage e = false)
       (emitted w (snd (onPositionChange env la lo al ts w)))) /\
  (forall num_active num_inview ts,
     Forall (fun e => is_SendMessage e = false)
       (emitted w (snd (onSatelliteChange env num_active num_inview ts w)))).
Proof.
  intros Hw. split.
  - intros la lo al ts.
    assert (Hk : keeps unsent (fun e => is_SendMessage e = false)
                   (onPositionChange env la lo al ts)).
    { unfold_controller. repeat (keeps_step; gate_side). }
    destruct (Hk w Hw) as [_ [evs [Ht Hq]]].
    rewrite (emitted_app _ _ _ Ht). exact Hq.
  - intros num_active num_inview ts.
    assert (Hk : keeps unsent (fun e => is_SendMessage e = false)
                   (onSatelliteChange env num_active num_inview ts)).
    { unfold_controller. repeat (keeps_step; gate_side). }
    destruct (Hk w Hw) as [_ [evs [Ht Hq]]].
    rewrite (emitted_app _ _ _ Ht). exact Hq.
Qed.

(** C2, on the code. [data_sent] starts true, so in the state a successful
    [locationInitialize] leaves, with no warm-start attempted, it is true,
    and a position callback with a fresh timestamp sends the position
    message. *)
Theorem position_forwarded_after_initialize :
  fst (locationInitialize field initial_world) = true /\
  data_sent (s_location_data initial_world) = true /\
  data_sent (s_location_data initialized) = true /\
  emitted initialized
    (snd (onPositionChange field 37.5 127.0 50.2 1000 initialized)) =
    [GetTime 1000] ++ sensor_queries RUNTIME_INFO_GPS_STATUS_CONNECTED ++
    [SetSatelliteUpdatedCb (Some 1%positive) SATELLITE_UPDATE_INTERVAL true;
     BundleCreate true;
     SendMessage REMOTE_APP_ID REMOTE_PORT
       [("msg_type", "POSITION_UPDATE"); ("latitude", "37.500000");
        ("longitude", "127.000000"); ("altitude", "127.000000")]%string
       true;
     BundleFree].
Proof. vm_compute. repeat split. Qed.

(** * Further properties of the controller *)

(** ** Operations and runs in the program logic *)

Lemma keeps_action {A : Type} (I : location_data -> Prop) (Q : event -> Prop)
    (m : M A) :
  keeps I Q m -> keeps I Q (fun w => (tt, snd (m w))).
Proof. intros Hm w Hw. exact (Hm w Hw). Qed.

Lemma keeps_ecore_timer_fire (env : oracle) (I : location_data -> Prop)
    (Q : event -> Prop) :
  keeps I Q (onTimerSend env) -> keeps I Q (ecore_timer_fire env).
Proof.
  intros Hm w Hw. unfold ecore_timer_fire.
  destruct (timers w).
  - cbn [snd]. split; [exact Hw|]. exists [].
    split; [symmetry; apply app_nil_r | constructor].
  - destruct (Hm w Hw) as [Hi Ht].
    destruct (fst (onTimerSend env w)); cbn [snd s_location_data trace];
      split; assumption.
Qed.

Lemma keeps_run (env : oracle) (I : location_data -> Prop) (Q : event -> Prop)
    (ops : list operation) :
  (forall op, In op ops -> keeps I Q (perform env op)) ->
  keeps I Q (fun w => (tt, run env ops w)).
Proof.
  unfold run. induction ops as [|op ops IH]; intros Hops w Hw;
    cbn [fold_left snd].
  - split; [exact Hw|]. exists [].
    split; [symmetry; apply app_nil_r | constructor].
  - destruct (Hops op (or_introl eq_refl) w Hw) as [Hi [evs1 [Ht1 Hq1]]].
    cbn [perform snd] in Hi, Ht1.
    destruct (IH (fun o Ho => Hops o (or_intror Ho)) (step env op w) Hi)
      as [Hi2 [evs2 [Ht2 Hq2]]].
    cbn [snd] in Hi2, Ht2.
    split; [exact Hi2|]. exists (evs1 ++ evs2). split.
    + rewrite Ht2, Ht1. symmetry. apply app_assoc.
    + apply Forall_app. split; assumption.
Qed.

(** An operation other than [locationInitialize] as a rule of the logic:
    its body is walked with [side] closing the side conditions. *)
Ltac keeps_operation side :=
  let finish := (unfold_controller; repeat (keeps_step; side)) in
  lazymatch goal with
  | |- keeps _ _ (perform _ OpTimer) =>
      unfold perform, step; apply keeps_action;
      apply keeps_ecore_timer_fire; finish
  | |- keeps _ _ (perform _ _) =>
      unfold perform, step; apply keeps_action; finish
  end.

(** ** The warm-start flag in the running service *)

(** X1. In every state the service reaches from its static initializers,
    by any operations against any platform, [data_sent] is true: the
    forwarding gate of the two data callbacks is open from the start. *)
Theorem data_sent_always (env : oracle) (ops : list operation) :
  data_sent (s_location_data (run env ops initial_world)) = true.
Proof.
  unfold run.
  assert (H : latched (s_location_data initial_world)) by reflexivity.
  revert H. generalize initial_world.
  induction ops as [|op ops IH]; intros w Hw; cbn [fold_left].
  - exact Hw.
  - apply IH. apply step_latched. exact Hw.
Qed.

(** At [muted] the peer is connected, the platform hands out bundles and
    the readings are as fresh as the clock: the flag alone keeps them from
    the message port. The same readings given at [live_initialized], where
    the flag is set, are sent. *)
Lemma callbacks_gated_witness :
  data_sent (s_location_data muted) = false /\
  (connected (s_location_data muted) = true /\
   manager (s_location_data muted) = Some 1%positive /\
   existsb is_SendMessage
     (emitted live_initialized
        (snd (onPositionChange live 37.5 127.0 50.2 1000 live_initialized)))
     = true /\
   existsb is_SendMessage
     (emitted live_initialized
        (snd (onSatelliteChange live 2 5 1000 live_initialized)))
     = true) /\
  Forall (fun e => is_SendMessage e = false)
    (emitted muted (snd (onPositionChange live 37.5 127.0 50.2 1000 muted))) /\
  Forall (fun e => is_SendMessage e = false)
    (emitted muted (snd (onSatelliteChange live 2 5 1000 muted))).
Proof.
  assert (H : data_sent (s_location_data muted) = false) by reflexivity.
  split; [exact H|]. split; [vm_compute; repeat split|]. split.
  - exact (proj1 (callbacks_gated live muted H) 37.5%float 127.0%float
             50.2%float 1000).
  - exact (proj2 (callbacks_gated live muted H) 2 5 1000).
Defined.

Lemma enableSat_sends_nothing (env : oracle) :
  keeps (fun _ => True) (fun e => is_SendMessage e = false) (enableSat env).
Proof.
  unfold_controller.
  repeat (keeps_step; try solve [exact Logic.I | reflexivity]).
Qed.

(** X3. A position whose timestamp is [MAX_TIME_DIFF] seconds or more
    behind the clock [onPositionChange] reads (the difference being one a
    [time_t] holds) is stored but not forwarded: the callback hands nothing
    to the message port. A difference of exactly 30 is already too old. *)
Theorem stale_position_not_forwarded (env : oracle) (w : world)
    (la lo al : float) (ts : time_t) :
  MAX_TIME_DIFF <= time env (trace w) - ts <= TIME_MAX ->
  let w1 := snd (onPositionChange env la lo al ts w) in
  trace w1 = trace w ++ emitted w w1 /\
  Forall (fun e => is_SendMessage e = false) (emitted w w1).
Proof.
  intros Hage.
  assert (Hlt : (time_sub (time env (trace w)) ts <? MAX_TIME_DIFF) = false).
  { rewrite time_sub_exact.
    - apply Z.ltb_ge. lia.
    - unfold TIME_MIN, MAX_TIME_DIFF in *. lia. }
  assert (H : exists evs,
             trace (snd (onPositionChange env la lo al ts w)) = trace w ++ evs /\
             Forall (fun e => is_SendMessage e = false) evs).
  { unfold onPositionChange, bind, get_gps_data, put_gps_data, call.
    cbn [trace s_gps_data s_location_data s_sat_data timers].
    rewrite gpsConnected_eq. cbv beta iota zeta.
    set (status := runtime_info_gps_status env _).
    set (w0 := record_events _ _).
    rewrite Hlt. unfold get_location_data.
    set (m := if status =? RUNTIME_INFO_GPS_STATUS_CONNECTED then _ else _).
    assert (Hsat : exists evs,
              trace (snd (m w0)) = trace w0 ++ evs /\
              Forall (fun e => is_SendMessage e = false) evs).
    { subst m. destruct (status =? RUNTIME_INFO_GPS_STATUS_CONNECTED).
      - unfold ret.
        destruct (enableSat_sends_nothing env w0 Logic.I) as [_ H].
        destruct (enableSat env w0). exact H.
      - exists []. split; [symmetry; apply app_nil_r | constructor]. }
    destruct Hsat as [evs [Ht Hq]].
    destruct (m w0) as [u w2].
    cbn [snd] in Ht. rewrite andb_false_r. cbn [snd ret].
    exists ([GetTime (time env (trace w))] ++ sensor_queries status ++ evs).
    split.
    - rewrite Ht. subst w0. cbn [trace record_events].
      rewrite <- !app_assoc. reflexivity.
    - apply Forall_app. split; [repeat constructor|].
      apply Forall_app. split; [repeat constructor | exact Hq]. }
  destruct H as [evs [Ht Hq]]. cbv zeta.
  rewrite (emitted_app _ _ _ Ht). split; assumption.
Qed.

Lemma stale_position_not_forwarded_witness :
  MAX_TIME_DIFF <= time live (trace live_initialized) - 970 <= TIME_MAX /\
  Forall (fun e => is_SendMessage e = false)
    (emitted live_initialized
       (snd (onPositionChange live 37.5 127.0 50.2 970 live_initialized))).
Proof.
  assert (H : MAX_TIME_DIFF <= time live (trace live_initialized) - 970
                <= TIME_MAX)
    by (vm_compute; split; discriminate).
  split; [exact H|].
  exact (proj2 (stale_position_not_forwarded live live_initialized 37.5%float
                  127.0%float 50.2%float 970 H)).
Defined.

(** ** The peer probe *)

Ltac no_peer_side :=
  try solve
    [ reflexivity
    | cbn; assumption
    | match goal with
      | Hd : connected ?d = false, E : negb (connected ?d) = false |- _ =>
          rewrite Hd in E; discriminate E
      end ].

(** X4. If [connected] is false, then through any operations that do not
    include [locationInitialize] (callbacks, warm-starts, timer, stop,
    finalize) it stays false and nothing is handed to the message port: a
    peer that appears after initialization is not served. *)
Theorem no_peer_no_message (env : oracle) (w : world) (ops : list operation) :
  connected (s_location_data w) = false ->
  forallb (fun op => negb (is_OpInitialize op)) ops = true ->
  let w' := run env ops w in
  connected (s_location_data w') = false /\
  trace w' = trace w ++ emitted w w' /\
  Forall (fun e => is_SendMessage e = false) (emitted w w').
Proof.
  intros Hc Hops w'.
  assert (Hk : keeps (fun d => connected d = false)
                 (fun e => is_SendMessage e = false)
                 (fun w0 => (tt, run env ops w0))).
  { apply keeps_run. intros op Hin.
    rewrite forallb_forall in Hops. specialize (Hops op Hin).
    destruct op; try discriminate Hops; keeps_operation no_peer_side. }
  destruct (Hk w Hc) as [Hi [evs [Ht Hq]]]. cbn [snd] in Hi, Ht.
  subst w'. rewrite (emitted_app _ _ _ Ht). repeat split; assumption.
Qed.

Lemma no_peer_no_message_witness :
  connected (s_location_data unheard) = false /\
  Forall (fun e => is_SendMessage e = false)
    (emitted unheard
       (run live
          [OpStateChange LOCATIONS_SERVICE_ENABLED;
           OpPositionChange 37.5 127.0 50.2 1000;
           OpSatelliteChange 2 5 1000; OpTimer; OpFinalize]
          unheard)).
Proof.
  assert (H : connected (s_location_data unheard) = false) by reflexivity.
  split; [exact H|].
  exact (proj2 (proj2 (no_peer_no_message live unheard
                         [OpStateChange LOCATIONS_SERVICE_ENABLED;
                          OpPositionChange 37.5 127.0 50.2 1000;
                          OpSatelliteChange 2 5 1000; OpTimer; OpFinalize]
                         H eq_refl))).
Defined.

(** ** One handle per life of the service *)

Ltac handle_side :=
  try solve
    [ left; reflexivity
    | cbn; assumption
    | right; cbn [event_handle]; congruence
    | congruence ].

(** X5. Once a handle is held, the provider's callbacks, the warm-start and
    the retry timer keep it and give the provider no other handle; the
    service's terminate callback, and its low-battery handler alike, then
    make exactly the teardown calls on that handle and clear it. *)
Theorem callbacks_one_handle (env : oracle) (w : world)
    (h : location_manager_h) (ops : list operation) :
  manager (s_location_data w) = Some h ->
  forallb is_callback ops = true ->
  let w1 := run env ops w in
  manager (s_location_data w1) = Some h /\
  trace w1 = trace w ++ emitted w w1 /\
  Forall (only_handle h) (emitted w w1) /\
  (forall s, s = ServiceTerminate \/ s = AppEvent APP_EVENT_LOW_BATTERY ->
     trace (snd (deliver env s w1)) = trace w1 ++ teardown h /\
     manager (s_location_data (snd (deliver env s w1))) = None).
Proof.
  intros Hm Hops w1.
  assert (Hk : keeps (fun d => manager d = Some h) (only_handle h)
                 (fun w0 => (tt, run env ops w0))).
  { apply keeps_run. intros op Hin.
    rewrite forallb_forall in Hops. specialize (Hops op Hin).
    destruct op; try discriminate Hops; keeps_operation handle_side. }
  destruct (Hk w Hm) as [Hi [evs [Ht Hq]]]. cbn [snd] in Hi, Ht.
  fold w1 in Hi, Ht.
  rewrite (emitted_app _ _ _ Ht).
  split; [exact Hi|]. split; [exact Ht|]. split; [exact Hq|].
  intros s [-> | ->];
    unfold deliver, onServiceTerminate, onLowBattery, locationStop;
    rewrite locationFinalize_eq; cbn [snd trace s_location_data];
    rewrite Hi; split; reflexivity.
Qed.

Lemma callbacks_one_handle_witness :
  manager (s_location_data initialized) = Some 1%positive /\
  Forall (only_handle 1%positive)
    (emitted initialized
       (run field
          [OpStateChange LOCATIONS_SERVICE_ENABLED;
           OpPositionChange 37.5 127.0 50.2 1000;
           OpSatelliteChange 2 5 1000; OpTimer]
          initialized)).
Proof.
  assert (H : manager (s_location_data initialized) = Some 1%positive)
    by reflexivity.
  split; [exact H|].
  exact (proj1 (proj2 (proj2 (callbacks_one_handle field initialized 1%positive
                                [OpStateChange LOCATIONS_SERVICE_ENABLED;
                                 OpPositionChange 37.5 127.0 50.2 1000;
                                 OpSatelliteChange 2 5 1000; OpTimer]
                                H eq_refl)))).
Defined.

Ltac enabled_side :=
  try solve
    [ reflexivity
    | cbn; tauto
    | intuition congruence ].

(** X6. When both subscriptions are already enabled, a further
    [LOCATIONS_SERVICE_ENABLED] event subscribes to nothing: it registers no
    callback and adds no timer, and both flags stay set. *)
Theorem enabled_event_subscribes_nothing (env : oracle) (w : world) :
  gpsEnabled (s_location_data w) = true ->
  satEnabled (s_location_data w) = true ->
  let w1 := snd (onStateChange env LOCATIONS_SERVICE_ENABLED w) in
  gpsEnabled (s_location_data w1) = true /\
  satEnabled (s_location_data w1) = true /\
  trace w1 = trace w ++ emitted w w1 /\
  Forall (fun e => subscribes e = false) (emitted w w1).
Proof.
  intros Hg Hs w1.
  assert (Hk : keeps (fun d => gpsEnabled d = true /\ satEnabled d = true)
                 (fun e => subscribes e = false)
                 (onStateChange env LOCATIONS_SERVICE_ENABLED)).
  { unfold_controller. repeat (keeps_step; enabled_side). }
  destruct (Hk w (conj Hg Hs)) as [[Hg1 Hs1] [evs [Ht Hq]]].
  fold w1 in Hg1, Hs1, Ht. rewrite (emitted_app _ _ _ Ht).
  repeat split; assumption.
Qed.

Lemma enabled_event_subscribes_nothing_witness :
  gpsEnabled (s_location_data subscribed) = true /\
  satEnabled (s_location_data subscribed) = true /\
  Forall (fun e => subscribes e = false)
    (emitted subscribed
       (snd (onStateChange field LOCATIONS_SERVICE_ENABLED subscribed))).
Proof.
  assert (Hg : gpsEnabled (s_location_data subscribed) = true) by reflexivity.
  assert (Hs : satEnabled (s_location_data subscribed) = true) by reflexivity.
  split; [exact Hg|]. split; [exact Hs|].
  exact (proj2 (proj2 (proj2 (enabled_event_subscribes_nothing field subscribed
                                Hg Hs)))).
Defined.

(** ** What a function leaves alone *)

Lemma holds_bind {A B : Type} (P : world -> Prop) (m : M A) (k : A -> M B) :
  holds P m -> (forall a, holds P (k a)) -> holds P (bind m k).
Proof.
  intros Hm Hk w Hw. unfold bind. specialize (Hm w Hw).
  destruct (m w) as [a w1]. apply Hk. exact Hm.
Qed.

(** A rule, a case split, or a primitive that does not touch what [P]
    reads. *)
Ltac holds_step :=
  lazymatch goal with
  | |- holds _ (bind _ _) => apply holds_bind; [ | intro ]
  | |- holds _ (match ?x with _ => _ end) => destruct x
  | |- holds _ _ =>
      let w := fresh "w" in
      let Hw := fresh "Hw" in
      intros w Hw; cbn; exact Hw
  end.

Ltac holds_auto := unfold_controller; repeat holds_step.

Lemma initData_framed (env : oracle) (n : nat) (d : location_data) :
  holds (framed n d) (initData env).
Proof. holds_auto. Qed.

Lemma sendSatellite_framed (env : oracle) (n : nat) (d : location_data) :
  holds (framed n d) (sendSatellite env).
Proof. holds_auto. Qed.

Lemma sendPosition_framed (env : oracle) (n : nat) (d : location_data) :
  holds (framed n d) (sendPosition env).
Proof. holds_auto. Qed.

(** From a state with [n] timers pending and [s_location_data] equal to
    [d], the warm-start ends with [n] timers pending and [d], with
    [data_sent] set when it returns true. *)
Lemma initDataSend_framed (env : oracle) (n : nat) (d : location_data)
    (w : world) :
  framed n d w ->
  timers (snd (initDataSend env w)) = n /\
  s_location_data (snd (initDataSend env w)) =
    if fst (initDataSend env w) then sent_once d else d.
Proof.
  intros H1. unfold initDataSend, bind.
  apply (initData_framed env _ _ w) in H1.
  destruct (initData env w) as [ok w1]. cbn [snd] in H1.
  destruct ok; cbn [negb]; [|exact H1].
  pose proof (sendSatellite_framed env _ _ w1 H1) as H2.
  destruct (sendSatellite env w1) as [sat w2]. cbn [snd] in H2.
  destruct sat; cbn [negb]; [|exact H2].
  pose proof (sendPosition_framed env _ _ w2 H2) as H3.
  destruct (sendPosition env w2) as [pos w3]. cbn [snd] in H3.
  destruct pos; cbn [negb]; [|exact H3].
  destruct H3 as [Ht Hd]. unfold set_data_sent, bind, get_location_data,
    put_location_data, ret, sent_once. cbn. rewrite Hd.
  split; [exact Ht|reflexivity].
Qed.

(** X7. The warm-start adds no timer, and of [s_location_data] it changes
    one field at most: when it returns true it has set [data_sent]; when it
    returns false, whether for a stale fix or for a failed send, the record
    is as it was. *)
Theorem initDataSend_frame (env : oracle) (w : world) :
  let r := initDataSend env w in
  timers (snd r) = timers w /\
  s_location_data (snd r) =
    if fst r then sent_once (s_location_data w) else s_location_data w.
Proof.
  cbv zeta.
  destruct (initDataSend_framed env (timers w) (s_location_data w) w)
    as [Ht Hd].
  - split; reflexivity.
  - split; [exact Ht | exact Hd].
Qed.

Lemma onTimerSend_eq (env : oracle) (w : world) :
  snd (onTimerSend env w) = snd (initDataSend env w) /\
  fst (onTimerSend env w) = negb (fst (initDataSend env w)).
Proof.
  unfold onTimerSend, bind. destruct (initDataSend env w) as [[|] w1];
    split; reflexivity.
Qed.

(** X8. A pending retry timer that fires does what the warm-start does and
    nothing more; it is dropped from the main loop exactly when that
    warm-start succeeded, and stays pending, to fire again, when it
    failed. *)
Theorem retry_timer_until_success (env : oracle) (w : world) (n : nat) :
  timers w = S n ->
  let sent := fst (initDataSend env w) in
  let w1 := snd (ecore_timer_fire env w) in
  timers w1 = (if sent then n else S n) /\
  s_location_data w1 =
    (if sent then sent_once (s_location_data w) else s_location_data w) /\
  s_gps_data w1 = s_gps_data (snd (initDataSend env w)) /\
  s_sat_data w1 = s_sat_data (snd (initDataSend env w)) /\
  trace w1 = trace (snd (initDataSend env w)).
Proof.
  intros Hn sent w1. subst sent w1. unfold ecore_timer_fire. rewrite Hn.
  destruct (onTimerSend_eq env w) as [Hs Hf]. rewrite Hf, Hs.
  destruct (initDataSend_framed env _ _ w (conj eq_refl eq_refl)) as [Ht Hd].
  rewrite Hn in Ht.
  destruct (fst (initDataSend env w));
    cbn [negb snd timers s_location_data s_gps_data s_sat_data trace].
  - rewrite Ht. repeat split. exact Hd.
  - repeat split; assumption.
Qed.

Lemma retry_timer_until_success_witness :
  timers subscribed = 1%nat /\
  timers (snd (ecore_timer_fire field subscribed)) =
    (if fst (initDataSend field subscribed) then 0%nat else 1%nat).
Proof.
  assert (H : timers subscribed = 1%nat) by reflexivity.
  split; [exact H|].
  exact (proj1 (retry_timer_until_success field subscribed 0 H)).
Defined.

(** X9. [enableGPS] returns true exactly when [gpsEnabled] was already set
    or the provider accepted the registration, whatever the warm-start did,
    and leaves in [gpsEnabled] the value it returns. It adds one retry timer
    exactly when it registered and the warm-start it then ran failed, and
    none otherwise. *)
Theorem enableGPS_result (env : oracle) (w : world) :
  let m := manager (s_location_data w) in
  let ok := location_manager_set_position_updated_cb env (trace w) m
              POSITION_UPDATE_INTERVAL in
  let w0 :=
    record_events w [SetPositionUpdatedCb m POSITION_UPDATE_INTERVAL ok] in
  let r := enableGPS env w in
  fst r = gpsEnabled (s_location_data w) || ok /\
  gpsEnabled (s_location_data (snd r)) = fst r /\
  timers (snd r) =
    if gpsEnabled (s_location_data w) then timers w
    else if ok && negb (fst (initDataSend env w0)) then S (timers w)
    else timers w.
Proof.
  cbv zeta. unfold enableGPS, bind, get_location_data.
  destruct (gpsEnabled (s_location_data w)) eqn:Hg; [cbn; auto|].
  unfold call.
  destruct (location_manager_set_position_updated_cb env (trace w)
              (manager (s_location_data w)) POSITION_UPDATE_INTERVAL);
    cbn [negb orb andb]; cbv beta iota.
  - fold (record_events w
            [SetPositionUpdatedCb (manager (s_location_data w))
               POSITION_UPDATE_INTERVAL true]).
    destruct (initDataSend_framed env _ _
                (record_events w
                   [SetPositionUpdatedCb (manager (s_location_data w))
                      POSITION_UPDATE_INTERVAL true])
                (conj eq_refl eq_refl)) as [Ht _].
    destruct (initDataSend env _) as [sent w1]. cbn [fst snd] in *.
    cbn [record_events timers] in Ht.
    destruct sent; unfold ecore_timer_add, set_gpsEnabled, bind,
      get_location_data, put_location_data, ret; cbn; rewrite Ht; auto.
  - unfold disableGPS, bind, get_location_data. cbn [s_location_data].
    destruct (manager (s_location_data w)); unfold emit, set_gpsEnabled, bind,
      get_location_data, put_location_data, ret; cbn; auto.
Qed.

(** ** [locationInitialize], case by case *)

Lemma locationInitialize_cases (env : oracle) (w : world) :
  let status :=
    runtime_info_gps_status env
      (trace w ++
       [RuntimeInfoGetValueBool RUNTIME_INFO_KEY_LOCATION_SERVICE_ENABLED]) in
  let d := s_location_data w in
  match location_manager_create env (trace w ++ sensor_queries status) with
  | None =>
      locationInitialize env w =
        (false,
         record_events w (sensor_queries status ++ [LocationManagerCreate None]))
  | Some h =>
      exists registered,
        if (registered : bool) then
          exists started exist,
            locationInitialize env w =
              (true,
               {| s_location_data :=
                    {| gpsEnabled := gpsEnabled d; satEnabled := satEnabled d;
                       manager := Some h; state := state d;
                       connected := match exist with
                                    | Some b => b
                                    | None => connected d
                                    end;
                       data_sent := data_sent d |};
                  s_gps_data := s_gps_data w; s_sat_data := s_sat_data w;
                  trace := trace w ++ sensor_queries status ++
                           [LocationManagerCreate (Some h);
                            SetServiceStateChangedCb (Some h) true;
                            LocationManagerStart (Some h) started;
                            CheckRemotePort REMOTE_APP_ID REMOTE_PORT exist];
                  timers := timers w |})
        else
          locationInitialize env w =
            (false,
             {| s_location_data := torn_down d;
                s_gps_data := s_gps_data w; s_sat_data := s_sat_data w;
                trace := trace w ++ sensor_queries status ++
                         LocationManagerCreate (Some h)
                         :: SetServiceStateChangedCb (Some h) false
                         :: teardown h;
                timers := timers w |})
  end.
Proof.
  cbv zeta. remember (locationInitialize env w) as r eqn:Hr.
  unfold locationInitialize, bind in Hr.
  rewrite gpsConnected_eq in Hr. cbv beta iota zeta in Hr.
  set (status := runtime_info_gps_status env _) in *.
  unfold call at 1 in Hr. cbn [trace record_events] in Hr.
  destruct (location_manager_create env _) as [h|]; cbv beta iota in Hr.
  - unfold set_manager, bind, get_location_data, put_location_data, call in Hr.
    cbn [s_location_data manager trace] in Hr.
    match type of Hr with
    | context [location_manager_set_service_state_changed_cb env ?tr ?m] =>
        exists (location_manager_set_service_state_changed_cb env tr m);
        destruct (location_manager_set_service_state_changed_cb env tr m)
    end; cbn [negb] in Hr; cbv beta iota in Hr.
    + unfold checkRemotePort, bind, call in Hr. cbn [trace] in Hr.
      set (started := location_manager_start env _ _) in Hr.
      destruct (message_port_check_remote_port env _ _ _) as [b|];
        [exists started, (Some b) | exists started, None];
        unfold set_connected, bind, get_location_data, put_location_data,
          ret in Hr;
        subst r; cbn; rewrite <- !app_assoc; reflexivity.
    + rewrite locationFinalize_eq in Hr. subst r. unfold ret, torn_down. cbn.
      rewrite <- !app_assoc. reflexivity.
  - subst r. unfold ret, record_events. cbn. rewrite <- !app_assoc. reflexivity.
Qed.

(** X10. [locationInitialize] never looks at the handle it holds when it is
    called: unless the provider hands the same handle out again, none of its
    platform calls is given that handle, so a handle held before a second
    initialization is neither unregistered, stopped nor destroyed by it. *)
Theorem initialize_spares_held_handle (env : oracle) (w : world)
    (h0 : location_manager_h) :
  let w1 := snd (locationInitialize env w) in
  let evs := emitted w w1 in
  ~ In (LocationManagerCreate (Some h0)) evs ->
  trace w1 = trace w ++ evs /\
  Forall (fun e => event_handle e <> Some h0) evs.
Proof.
  cbv zeta. pose proof (locationInitialize_cases env w) as H. cbv zeta in H.
  set (status := runtime_info_gps_status env _) in *.
  assert (Hq : Forall (fun e => event_handle e <> Some h0)
                 (sensor_queries status)).
  { repeat constructor; discriminate. }
  destruct (location_manager_create env _) as [h|].
  - destruct H as [[|] H].
    + destruct H as [started [exist H]]. rewrite H. cbn [snd].
      match goal with
      | |- context [emitted w ?w1] =>
          rewrite (emitted_app w w1 _ eq_refl)
      end.
      intros Hn. split; [reflexivity|].
      assert (Hh : h <> h0).
      { intros ->. apply Hn. apply in_or_app. right. left. reflexivity. }
      apply Forall_app. split; [exact Hq|].
      repeat constructor; cbn; congruence.
    + rewrite H. cbn [snd].
      match goal with
      | |- context [emitted w ?w1] =>
          rewrite (emitted_app w w1 _ eq_refl)
      end.
      intros Hn. split; [reflexivity|].
      assert (Hh : h <> h0).
      { intros ->. apply Hn. apply in_or_app. right. left. reflexivity. }
      apply Forall_app. split; [exact Hq|].
      repeat constructor; cbn; congruence.
  - rewrite H. cbn [snd].
    rewrite (emitted_app w
               (record_events w
                  (sensor_queries status ++ [LocationManagerCreate None]))
               (sensor_queries status ++ [LocationManagerCreate None]) eq_refl).
    intros _. split; [reflexivity|].
    apply Forall_app. split; [exact Hq|]. repeat constructor; discriminate.
Qed.

Lemma initialize_spares_held_handle_witness :
  manager (s_location_data first_issue) = Some 1%positive /\
  manager (s_location_data (snd (locationInitialize reissuing first_issue)))
    = Some 2%positive /\
  Forall (fun e => event_handle e <> Some 1%positive)
    (emitted first_issue (snd (locationInitialize reissuing first_issue))).
Proof.
  split; [reflexivity|]. split; [reflexivity|].
  assert (H : ~ In (LocationManagerCreate (Some 1%positive))
                (emitted first_issue
                   (snd (locationInitialize reissuing first_issue)))).
  { vm_compute. intuition discriminate. }
  exact (proj2 (initialize_spares_held_handle reissuing first_issue 1%positive H)).
Defined.

(** X11. When [locationInitialize] returns true it holds the handle the
    provider created and has probed the peer's port once; [connected] is
    what the probe stored, or its previous value when the probe failed. The
    two subscription flags, the service state, [data_sent], both readings
    and the pending timers are what they were. *)
Theorem initialize_success_state (env : oracle) (w : world) :
  fst (locationInitialize env w) = true ->
  let w1 := snd (locationInitialize env w) in
  let d := s_location_data w in
  exists h exist,
    In (LocationManagerCreate (Some h)) (emitted w w1) /\
    In (CheckRemotePort REMOTE_APP_ID REMOTE_PORT exist) (emitted w w1) /\
    s_location_data w1 =
      {| gpsEnabled := gpsEnabled d; satEnabled := satEnabled d;
         manager := Some h; state := state d;
         connected := match exist with
                      | Some b => b
                      | None => connected d
                      end;
         data_sent := data_sent d |} /\
    s_gps_data w1 = s_gps_data w /\
    s_sat_data w1 = s_sat_data w /\
    timers w1 = timers w.
Proof.
  cbv zeta. pose proof (locationInitialize_cases env w) as H. cbv zeta in H.
  set (status := runtime_info_gps_status env _) in *.
  destruct (location_manager_create env _) as [h|].
  - destruct H as [[|] H].
    + destruct H as [started [exist H]]. rewrite H. cbn [fst snd]. intros _.
      exists h, exist.
      match goal with
      | |- context [emitted w ?w1] =>
          rewrite (emitted_app w w1 _ eq_refl)
      end.
      cbn [s_location_data s_gps_data s_sat_data timers].
      repeat split; apply in_or_app; right; cbn; auto.
    + rewrite H. discriminate.
  - rewrite H. discriminate.
Qed.

Lemma initialize_success_state_witness :
  fst (locationInitialize field initial_world) = true /\
  exists h exist,
    In (LocationManagerCreate (Some h))
      (emitted initial_world (snd (locationInitialize field initial_world))) /\
    In (CheckRemotePort REMOTE_APP_ID REMOTE_PORT exist)
      (emitted initial_world (snd (locationInitialize field initial_world))) /\
    s_location_data (snd (locationInitialize field initial_world)) =
      {| gpsEnabled := gpsEnabled (s_location_data initial_world);
         satEnabled := satEnabled (s_location_data initial_world);
         manager := Some h; state := state (s_location_data initial_world);
         connected := match exist with
                      | Some b => b
                      | None => connected (s_location_data initial_world)
                      end;
         data_sent := data_sent (s_location_data initial_world) |} /\
    s_gps_data (snd (locationInitialize field initial_world)) =
      s_gps_data initial_world /\
    s_sat_data (snd (locationInitialize field initial_world)) =
      s_sat_data initial_world /\
    timers (snd (locationInitialize field initial_world)) =
      timers initial_world.
Proof.
  assert (H : fst (locationInitialize field initial_world) = true)
    by reflexivity.
  split; [exact H|].
  exact (initialize_success_state field initial_world H).
Defined.

(** ** The readings *)

(** X12. [onPositionChange] stores latitude, longitude, altitude and
    timestamp as given, keeps the other six fields of [s_gps_data] and does
    not touch [s_sat_data]; [onSatelliteChange] stores its three arguments
    as [s_sat_data] and does not touch [s_gps_data]. This holds whatever
    else the callbacks do (enabling the satellite subscription, sending). *)
Theorem callbacks_store_readings (env : oracle) (w : world) :
  (forall la lo al ts,
     let w1 := snd (onPositionChange env la lo al ts w) in
     let g := s_gps_data w in
     s_gps_data w1 =
       {| altitude := al; latitude := la; longitude := lo; climb := climb g;
          direction := direction g; speed := speed g;
          horizontal := horizontal g; vertical := vertical g;
          level := level g; timestamp := ts |} /\
     s_sat_data w1 = s_sat_data w) /\
  (forall num_active num_inview ts,
     let w1 := snd (onSatelliteChange env num_active num_inview ts w) in
     s_sat_data w1 =
       {| active := num_active; inview := num_inview; sat_timestamp := ts |} /\
     s_gps_data w1 = s_gps_data w).
Proof.
  split.
  - intros la lo al ts. cbv zeta.
    unfold onPositionChange. unfold bind at 1 2.
    unfold get_gps_data, put_gps_data.
    match goal with
    | |- context [snd (?k ?w0)] =>
        assert (Hk : holds (readings (s_gps_data w0) (s_sat_data w0)) k)
    end.
    { holds_auto. }
    apply Hk. split; reflexivity.
  - intros num_active num_inview ts. cbv zeta.
    unfold onSatelliteChange. unfold bind at 1. unfold put_sat_data.
    match goal with
    | |- context [snd (?k ?w0)] =>
        assert (Hk : holds (readings (s_gps_data w0) (s_sat_data w0)) k)
    end.
    { holds_auto. }
    destruct (Hk _ (conj eq_refl eq_refl)) as [Hg Hs]. split; assumption.
Qed.

(** ** Decimal strings in a buffer of [CHAR_BUFF_SIZE] *)

Lemma usize_nb_digits (d : Decimal.uint) :
  DecimalPos.Unsigned.usize d = N.of_nat (Decimal.nb_digits d).
Proof.
  induction d; cbn [DecimalPos.Unsigned.usize Decimal.nb_digits];
    [reflexivity | rewrite IHd; lia ..].
Qed.

Lemma string_of_uint_length (d : Decimal.uint) :
  String.length (NilEmpty.string_of_uint d) = Decimal.nb_digits d.
Proof.
  induction d; cbn [NilEmpty.string_of_uint String.length Decimal.nb_digits];
    [reflexivity | rewrite IHd; reflexivity ..].
Qed.

(** A positive below [10 ^ k] has at most [k] decimal digits. *)
Lemma to_uint_digits (p : positive) (k : nat) :
  Z.pos p < 10 ^ Z.of_nat k ->
  (Decimal.nb_digits (Pos.to_uint p) <= k)%nat.
Proof.
  intros Hp.
  pose proof (DecimalPos.Unsigned.of_to p) as Hof.
  pose proof (DecimalPos.Unsigned.to_of (Pos.to_uint p)) as Hto.
  rewrite Hof in Hto. cbn [N.to_uint] in Hto.
  assert (Hlow : forall d acc,
             (N.pos acc * 10 ^ DecimalPos.Unsigned.usize d
              <= N.pos (Pos.of_uint_acc d acc))%N).
  { intros d acc. rewrite DecimalPos.Unsigned.of_uint_acc_rev. lia. }
  assert (Hbound : forall d acc,
             N.pos (Pos.of_uint_acc d acc) = N.pos p ->
             (Decimal.nb_digits d < k)%nat).
  { intros d acc Hd. specialize (Hlow d acc). rewrite Hd in Hlow.
    rewrite usize_nb_digits in Hlow.
    destruct (Nat.lt_ge_cases (Decimal.nb_digits d) k) as [|Hge]; [assumption|].
    exfalso.
    assert (H10 : 10 ^ Z.of_nat k <= 10 ^ Z.of_nat (Decimal.nb_digits d))
      by (apply Z.pow_le_mono_r; lia).
    assert (Hz : Z.of_N (10 ^ N.of_nat (Decimal.nb_digits d))
                 = 10 ^ Z.of_nat (Decimal.nb_digits d)).
    { rewrite N2Z.inj_pow, nat_N_Z. reflexivity. }
    assert (1 <= N.pos acc)%N by lia.
    assert (Hm : (10 ^ N.of_nat (Decimal.nb_digits d) <= N.pos p)%N) by nia.
    apply N2Z.inj_le in Hm. rewrite Hz in Hm. cbn [Z.of_N] in Hm. lia. }
  destruct (Pos.to_uint p) as [|d|d|d|d|d|d|d|d|d|d] eqn:Hd;
    cbn [Pos.of_uint Decimal.nb_digits] in *;
    try discriminate Hof;
    try (specialize (Hbound _ _ Hof); lia).
  (* a leading zero *)
  exfalso. unfold Decimal.unorm in Hto. cbn [Decimal.nzhead] in Hto.
  pose proof (DecimalFacts.nb_digits_nzhead d) as Hn.
  destruct (Decimal.nzhead d) eqn:Hz; try discriminate Hto.
  - injection Hto as Hto. subst d. discriminate Hof.
  - injection Hto as Hto. subst. cbn [Decimal.nb_digits] in Hn. lia.
Qed.

Lemma substring_all (s : string) (n : nat) :
  (String.length s <= n)%nat -> substring 0 n s = s.
Proof.
  revert n. induction s as [|c s IH]; intros n Hn.
  - destruct n; reflexivity.
  - destruct n; cbn [String.length] in Hn; [lia|].
    cbn [substring]. rewrite IH by lia. reflexivity.
Qed.

Lemma decimal_length (z : Z) :
  INT_MIN <= z <= INT_MAX -> (String.length (decimal z) <= 11)%nat.
Proof.
  unfold INT_MIN, INT_MAX, decimal. intros Hz.
  destruct z as [|p|p]; cbn [Z.to_int NilZero.string_of_int].
  - cbn. lia.
  - unfold NilZero.string_of_uint.
    pose proof (to_uint_digits p 10) as Hp.
    destruct (Pos.to_uint p) eqn:Hd;
      try (rewrite string_of_uint_length; lia).
    cbn. lia.
  - cbn [String.length]. unfold NilZero.string_of_uint.
    pose proof (to_uint_digits p 10) as Hp.
    destruct (Pos.to_uint p) eqn:Hd;
      try (rewrite string_of_uint_length; lia).
    cbn. lia.
Qed.

Lemma decimal_parses (z : Z) :
  option_map Z.of_int (NilZero.int_of_string (decimal z)) = Some z.
Proof.
  unfold decimal.
  assert (H : NilZero.int_of_string (NilZero.string_of_int (Z.to_int z))
              = Some (Z.to_int z)).
  { destruct z as [|p|p]; cbn [Z.to_int].
    - reflexivity.
    - apply NilZero.isi; [|discriminate].
      intros [= H]. exact (DecimalPos.Unsigned.to_uint_nonnil p H).
    - apply NilZero.isi; [discriminate|].
      intros [= H]. exact (DecimalPos.Unsigned.to_uint_nonnil p H). }
  rewrite H. cbn [option_map]. rewrite DecimalZ.of_to. reflexivity.
Qed.

(** The buffer holds the ["%d"] of every [int] whole. *)
Lemma snprintf_int (z : Z) :
  INT_MIN <= z <= INT_MAX ->
  snprintf CHAR_BUFF_SIZE (format_d z) = format_d z.
Proof.
  intros Hz. unfold snprintf, format_d. apply substring_all.
  pose proof (decimal_length z Hz). cbn. lia.
Qed.

(** ** The messages *)

(** With a peer, [sendSatellite] and [sendPosition] return what the message
    port answered, and false with no bundle. *)
Lemma sendSatellite_connected (env : oracle) (w : world) :
  connected (s_location_data w) = true ->
  exists b,
    bundle_get_str b "msg_type" = Some MESSAGE_TYPE_SATELLITES_UPDATE /\
    bundle_get_str b "active" =
      Some (snprintf CHAR_BUFF_SIZE (format_d (active (s_sat_data w)))) /\
    bundle_get_str b "inview" =
      Some (snprintf CHAR_BUFF_SIZE (format_d (inview (s_sat_data w)))) /\
    sendSatellite env w =
      if bundle_create env (trace w) then
        let ok := message_port_send_message env (trace w ++ [BundleCreate true])
                    REMOTE_APP_ID REMOTE_PORT b in
        (ok, record_events w
               [BundleCreate true; SendMessage REMOTE_APP_ID REMOTE_PORT b ok;
                BundleFree])
      else (false, record_events w [BundleCreate false]).
Proof.
  intros Hc. eexists. split; [|split; [|split]].
  4: { unfold sendSatellite, sendMessage, bind, call, get_sat_data,
         get_location_data, emit, ret, record_events.
       destruct (bundle_create env (trace w)); [|reflexivity].
       cbn [s_location_data s_sat_data trace timers]. rewrite Hc.
       cbn [negb snd fst trace s_location_data s_sat_data s_gps_data timers].
       rewrite <- !app_assoc. reflexivity. }
  all: reflexivity.
Qed.

Lemma sendPosition_connected (env : oracle) (w : world) :
  connected (s_location_data w) = true ->
  exists b,
    bundle_get_str b "msg_type" = Some MESSAGE_TYPE_POSITION_UPDATE /\
    sendPosition env w =
      if bundle_create env (trace w) then
        let ok := message_port_send_message env (trace w ++ [BundleCreate true])
                    REMOTE_APP_ID REMOTE_PORT b in
        (ok, record_events w
               [BundleCreate true; SendMessage REMOTE_APP_ID REMOTE_PORT b ok;
                BundleFree])
      else (false, record_events w [BundleCreate false]).
Proof.
  intros Hc. eexists. split.
  2: { unfold sendPosition, sendMessage, bind, call, get_gps_data,
         get_location_data, emit, ret, record_events.
       destruct (bundle_create env (trace w)); [|reflexivity].
       cbn [s_location_data s_gps_data trace timers]. rewrite Hc.
       cbn [negb snd fst trace s_location_data s_sat_data s_gps_data timers].
       rewrite <- !app_assoc. reflexivity. }
  reflexivity.
Qed.

(** X13. With a peer and a bundle, [sendSatellite] makes one send and
    returns what the message port answered. For counts that are C [int]s the
    20-character buffers truncate nothing: the message holds the message
    type and, under "active" and "inview", the decimal strings of the two
    stored counts, which read back as those counts. *)
Theorem sendSatellite_payload (env : oracle) (w : world) :
  connected (s_location_data w) = true ->
  bundle_create env (trace w) = true ->
  INT_MIN <= active (s_sat_data w) <= INT_MAX ->
  INT_MIN <= inview (s_sat_data w) <= INT_MAX ->
  exists b,
    emitted w (snd (sendSatellite env w)) =
      [BundleCreate true;
       SendMessage REMOTE_APP_ID REMOTE_PORT b (fst (sendSatellite env w));
       BundleFree] /\
    bundle_get_str b "msg_type" = Some MESSAGE_TYPE_SATELLITES_UPDATE /\
    bundle_get_str b "active" = Some (format_d (active (s_sat_data w))) /\
    bundle_get_str b "inview" = Some (format_d (inview (s_sat_data w))) /\
    bundle_get_int b "active" = Some (active (s_sat_data w)) /\
    bundle_get_int b "inview" = Some (inview (s_sat_data w)).
Proof.
  intros Hc Hb Ha Hi.
  destruct (sendSatellite_connected env w Hc) as [b [Hm [Hga [Hgi Hs]]]].
  rewrite Hb in Hs. cbv zeta in Hs.
  rewrite snprintf_int in Hga by exact Ha.
  rewrite snprintf_int in Hgi by exact Hi.
  exists b. rewrite Hs. cbn [fst snd].
  rewrite (emitted_app w (record_events w _) _ eq_refl).
  repeat split; try assumption.
  - unfold bundle_get_int. rewrite Hga. apply decimal_parses.
  - unfold bundle_get_int. rewrite Hgi. apply decimal_parses.
Qed.

Lemma sendSatellite_payload_witness :
  connected (s_location_data subscribed) = true /\
  bundle_create field (trace subscribed) = true /\
  active (s_sat_data subscribed) = 2 /\
  inview (s_sat_data subscribed) = 5 /\
  exists b,
    emitted subscribed (snd (sendSatellite field subscribed)) =
      [BundleCreate true;
       SendMessage REMOTE_APP_ID REMOTE_PORT b
         (fst (sendSatellite field subscribed));
       BundleFree] /\
    bundle_get_str b "msg_type" = Some MESSAGE_TYPE_SATELLITES_UPDATE /\
    bundle_get_str b "active" =
      Some (format_d (active (s_sat_data subscribed))) /\
    bundle_get_str b "inview" =
      Some (format_d (inview (s_sat_data subscribed))) /\
    bundle_get_int b "active" = Some (active (s_sat_data subscribed)) /\
    bundle_get_int b "inview" = Some (inview (s_sat_data subscribed)).
Proof.
  assert (Hc : connected (s_location_data subscribed) = true) by reflexivity.
  assert (Hb : bundle_create field (trace subscribed) = true) by reflexivity.
  assert (Ha : INT_MIN <= active (s_sat_data subscribed) <= INT_MAX)
    by (vm_compute; split; discriminate).
  assert (Hi : INT_MIN <= inview (s_sat_data subscribed) <= INT_MAX)
    by (vm_compute; split; discriminate).
  split; [exact Hc|]. split; [exact Hb|].
  split; [reflexivity|]. split; [reflexivity|].
  exact (sendSatellite_payload field subscribed Hc Hb Ha Hi).
Defined.

Lemma initData_sends_nothing (env : oracle) :
  keeps (fun _ => True) (fun e => is_SendMessage e = false) (initData env).
Proof.
  unfold_controller.
  repeat (keeps_step; try solve [exact Logic.I | reflexivity]).
Qed.

(** X14. A warm-start that returns true with a peer connected has handed
    the message port exactly two messages, both accepted: the satellite
    update first, the position update second; and [data_sent] is set. *)
Theorem warm_start_messages (env : oracle) (w : world) :
  connected (s_location_data w) = true ->
  fst (initDataSend env w) = EINA_TRUE ->
  let w1 := snd (initDataSend env w) in
  exists bs bp,
    filter is_SendMessage (emitted w w1) =
      [SendMessage REMOTE_APP_ID REMOTE_PORT bs true;
       SendMessage REMOTE_APP_ID REMOTE_PORT bp true] /\
    bundle_get_str bs "msg_type" = Some MESSAGE_TYPE_SATELLITES_UPDATE /\
    bundle_get_str bp "msg_type" = Some MESSAGE_TYPE_POSITION_UPDATE /\
    data_sent (s_location_data w1) = true.
Proof.
  intros Hc. cbv zeta. unfold initDataSend, bind.
  destruct (initData_sends_nothing env w Logic.I) as [_ [evs0 [Ht0 Hq0]]].
  pose proof (initData_framed env _ _ w (conj eq_refl eq_refl)) as [_ Hd1].
  destruct (initData env w) as [ok w1]. cbn [snd] in Ht0, Hd1.
  destruct ok; cbn [negb]; [|discriminate].
  assert (Hc1 : connected (s_location_data w1) = true)
    by (rewrite Hd1; exact Hc).
  destruct (sendSatellite_connected env w1 Hc1) as [bs [Hms [_ [_ Hs]]]].
  rewrite Hs. clear Hs.
  destruct (bundle_create env (trace w1)); [|discriminate].
  cbv zeta.
  destruct (message_port_send_message env _ _ _ bs); cbn [negb];
    [|discriminate].
  set (w2 := record_events w1 _).
  assert (Hc2 : connected (s_location_data w2) = true) by exact Hc1.
  destruct (sendPosition_connected env w2 Hc2) as [bp [Hmp Hp]].
  rewrite Hp. clear Hp.
  destruct (bundle_create env (trace w2)); [|discriminate].
  cbv zeta.
  destruct (message_port_send_message env _ _ _ bp); cbn [negb];
    [|discriminate].
  intros _. exists bs, bp.
  unfold set_data_sent, bind, get_location_data, put_location_data, ret.
  cbn [snd s_location_data data_sent].
  split; [|repeat split; assumption].
  rewrite (emitted_app w _
             (evs0 ++
              [BundleCreate true; SendMessage REMOTE_APP_ID REMOTE_PORT bs true;
               BundleFree] ++
              [BundleCreate true; SendMessage REMOTE_APP_ID REMOTE_PORT bp true;
               BundleFree])).
  - rewrite filter_app, (filter_none _ _ Hq0). reflexivity.
  - subst w2. cbn [trace record_events]. rewrite Ht0, <- !app_assoc.
    reflexivity.
Qed.

Lemma warm_start_messages_witness :
  connected (s_location_data live_initialized) = true /\
  fst (initDataSend live live_initialized) = EINA_TRUE /\
  exists bs bp,
    filter is_SendMessage
      (emitted live_initialized (snd (initDataSend live live_initialized))) =
      [SendMessage REMOTE_APP_ID REMOTE_PORT bs true;
       SendMessage REMOTE_APP_ID REMOTE_PORT bp true] /\
    bundle_get_str bs "msg_type" = Some MESSAGE_TYPE_SATELLITES_UPDATE /\
    bundle_get_str bp "msg_type" = Some MESSAGE_TYPE_POSITION_UPDATE /\
    data_sent (s_location_data (snd (initDataSend live live_initialized)))
      = true.
Proof.
  assert (Hc : connected (s_location_data live_initialized) = true)
    by reflexivity.
  assert (Hs : fst (initDataSend live live_initialized) = EINA_TRUE)
    by reflexivity.
  split; [exact Hc|]. split; [exact Hs|].
  exact (warm_start_messages live live_initialized Hc Hs).
Defined.

Lemma sendPosition_payload_witness :
  connected (s_location_data located) = true /\
  bundle_create field (trace located) = true /\
  exists b ok,
    emitted located (snd (sendPosition field located)) =
      [BundleCreate true; SendMessage REMOTE_APP_ID REMOTE_PORT b ok;
       BundleFree] /\
    bundle_get_str b "latitude" =
      Some (snprintf CHAR_BUFF_SIZE (format_f (latitude (s_gps_data located)))) /\
    bundle_get_str b "longitude" =
      Some (snprintf CHAR_BUFF_SIZE (format_f (longitude (s_gps_data located)))) /\
    bundle_get_str b "altitude" =
      Some (snprintf CHAR_BUFF_SIZE (format_f (longitude (s_gps_data located)))).
Proof.
  assert (Hc : connected (s_location_data located) = true) by reflexivity.
  assert (Hb : bundle_create field (trace located) = true) by reflexivity.
  split; [exact Hc|]. split; [exact Hb|].
  exact (sendPosition_payload field located Hc Hb).
Defined.

(** ** The satellite subscription *)

(** What one call of [enableSat] does to the flag and to the history. *)
Lemma enableSat_effect (env : oracle) (w : world) :
  let w1 := snd (enableSat env w) in
  exists evs,
    trace w1 = trace w ++ evs /\
    satEnabled (s_location_data w1) =
      satEnabled (s_location_data w) || existsb satellite_registered evs /\
    fst (enableSat env w) = satEnabled (s_location_data w1) /\
    (forall e, In e evs -> is_SetSatelliteUpdatedCb e = true ->
               satEnabled (s_location_data w) = false) /\
    Forall (fun e => is_SendMessage e = false) evs.
Proof.
  cbv zeta. unfold enableSat, bind, get_location_data.
  destruct (satEnabled (s_location_data w)) eqn:Hs.
  - exists []. cbn [snd fst ret]. rewrite Hs, app_nil_r.
    repeat split; [intros e []|constructor].
  - unfold call.
    destruct (gps_status_set_satellite_updated_cb env (trace w)
                (manager (s_location_data w)) SATELLITE_UPDATE_INTERVAL);
      cbn [negb]; cbv beta iota.
    + eexists. unfold set_satEnabled, bind, get_location_data,
        put_location_data, ret. cbn.
      split; [reflexivity|]. repeat split; repeat constructor.
    + unfold disableSat, bind, get_location_data. cbn [s_location_data].
      destruct (manager (s_location_data w)); unfold emit, set_satEnabled,
        bind, get_location_data, put_location_data, ret; cbn;
        eexists; (split; [rewrite <- ?app_assoc; cbn [app]; try reflexivity;
                          symmetry; apply app_nil_r|]);
        repeat split; repeat constructor.
Qed.

Lemma sendPosition_registers_nothing (env : oracle) :
  keeps (fun _ => True) (fun e => is_SetSatelliteUpdatedCb e = false)
    (sendPosition env).
Proof.
  unfold_controller.
  repeat (keeps_step; try solve [exact Logic.I | reflexivity]).
Qed.

Lemma existsb_none {A : Type} (f g : A -> bool) (l : list A) :
  (forall a, g a = false -> f a = false) ->
  Forall (fun a => g a = false) l -> existsb f l = false.
Proof.
  intros Hfg. induction 1 as [|a l Ha _ IH]; cbn; [reflexivity|].
  rewrite (Hfg a Ha). exact IH.
Qed.

(** X16. [onPositionChange] re-checks the sensor on every update: after it,
    [satEnabled] is set exactly when it was set before or the callback
    registered the satellite callback and the provider accepted. The
    callback attempts that registration only when [satEnabled] was clear and
    the runtime-info query it just made answered
    [RUNTIME_INFO_GPS_STATUS_CONNECTED]. *)
Theorem position_update_enables_satellites (env : oracle) (w : world)
    (la lo al : float) (ts : time_t) :
  let w1 := snd (onPositionChange env la lo al ts w) in
  let evs := emitted w w1 in
  trace w1 = trace w ++ evs /\
  satEnabled (s_location_data w1) =
    satEnabled (s_location_data w) || existsb satellite_registered evs /\
  (forall e, In e evs -> is_SetSatelliteUpdatedCb e = true ->
     satEnabled (s_location_data w) = false /\
     In (RuntimeInfoGetValueInt RUNTIME_INFO_KEY_GPS_STATUS
           RUNTIME_INFO_GPS_STATUS_CONNECTED) evs).
Proof.
  cbv zeta.
  assert (H : exists evs,
    trace (snd (onPositionChange env la lo al ts w)) = trace w ++ evs /\
    satEnabled (s_location_data (snd (onPositionChange env la lo al ts w))) =
      satEnabled (s_location_data w) || existsb satellite_registered evs /\
    (forall e, In e evs -> is_SetSatelliteUpdatedCb e = true ->
       satEnabled (s_location_data w) = false /\
       In (RuntimeInfoGetValueInt RUNTIME_INFO_KEY_GPS_STATUS
             RUNTIME_INFO_GPS_STATUS_CONNECTED) evs)).
  { unfold onPositionChange, bind, get_gps_data, put_gps_data, call.
    cbn [trace s_gps_data s_location_data s_sat_data timers].
    rewrite gpsConnected_eq. cbv beta iota zeta.
    set (now := time env (trace w)).
    set (status := runtime_info_gps_status env _).
    set (w0 := record_events _ _).
    unfold get_location_data.
    set (m := if status =? RUNTIME_INFO_GPS_STATUS_CONNECTED then _ else _).
    assert (Hsat : exists evs1,
              trace (snd (m w0)) = trace w0 ++ evs1 /\
              satEnabled (s_location_data (snd (m w0))) =
                satEnabled (s_location_data w)
                || existsb satellite_registered evs1 /\
              (forall e, In e evs1 -> is_SetSatelliteUpdatedCb e = true ->
                 satEnabled (s_location_data w) = false /\
                 status = RUNTIME_INFO_GPS_STATUS_CONNECTED)).
    { subst m. destruct (Z.eqb_spec status RUNTIME_INFO_GPS_STATUS_CONNECTED)
        as [Hst|Hst].
      - destruct (enableSat_effect env w0) as [evs1 [Ht [Hs [_ [Hin _]]]]].
        destruct (enableSat env w0) as [r w2]. cbn [snd ret] in *.
        exists evs1. split; [exact Ht|]. split; [exact Hs|].
        intros e He Hset. split; [exact (Hin e He Hset) | exact Hst].
      - exists []. cbn [snd ret existsb]. rewrite app_nil_r, orb_false_r.
        split; [reflexivity|]. split; [reflexivity|]. intros e []. }
    destruct Hsat as [evs1 [Ht1 [Hs1 Hin1]]].
    destruct (m w0) as [u w2]. cbn [snd] in Ht1, Hs1.
    set (g := if data_sent (s_location_data w2) && _ then _ else _).
    assert (Hsend : exists evs2,
              trace (snd (g w2)) = trace w2 ++ evs2 /\
              s_location_data (snd (g w2)) = s_location_data w2 /\
              Forall (fun e => is_SetSatelliteUpdatedCb e = false) evs2).
    { subst g. destruct (data_sent (s_location_data w2) && _).
      - destruct (sendPosition_registers_nothing env w2 Logic.I)
          as [_ [evs2 [Ht2 Hq2]]].
        pose proof (sendPosition_framed env _ _ w2 (conj eq_refl eq_refl))
          as [_ Hd2].
        destruct (sendPosition env w2) as [r w3]. cbn [snd ret] in *.
        exists evs2. repeat split; assumption.
      - exists []. cbn [snd ret]. rewrite app_nil_r. repeat split.
        constructor. }
    destruct Hsend as [evs2 [Ht2 [Hd2 Hq2]]].
    exists ([GetTime now] ++ sensor_queries status ++ evs1 ++ evs2).
    split; [|split].
    - rewrite Ht2, Ht1. subst w0. cbn [trace record_events].
      rewrite <- !app_assoc. reflexivity.
    - rewrite Hd2, Hs1. f_equal.
      rewrite !existsb_app.
      rewrite (existsb_none satellite_registered is_SetSatelliteUpdatedCb evs2)
        by (try exact Hq2; intros [] Ha; try reflexivity; discriminate Ha).
      cbn. rewrite orb_false_r. reflexivity.
    - intros e He Hset.
      apply in_app_or in He. destruct He as [He|He];
        [in_cases He; subst e; discriminate Hset|].
      apply in_app_or in He. destruct He as [He|He];
        [in_cases He; subst e; discriminate Hset|].
      apply in_app_or in He. destruct He as [He|He].
      + destruct (Hin1 e He Hset) as [Hs Hst]. split; [exact Hs|].
        apply in_or_app. right. apply in_or_app. left.
        rewrite Hst. right. left. reflexivity.
      + rewrite Forall_forall in Hq2. rewrite (Hq2 e He) in Hset.
        discriminate Hset. }
  destruct H as [evs [Ht H]]. rewrite (emitted_app _ _ _ Ht).
  split; [exact Ht | exact H].
Qed.

(** ** The fetch on [LOCATIONS_SERVICE_ENABLED] *)

Ltac fetch_side :=
  try solve [ reflexivity | unfold enabled_on in *; cbn; tauto ].

Lemma enableGPS_fetches_nothing (env : oracle)
    (m : option location_manager_h) :
  keeps (enabled_on m) (fun e => is_fetch e = false) (enableGPS env).
Proof. unfold_controller. repeat (keeps_step; fetch_side). Qed.

Lemma sensor_check_fetches_nothing (env : oracle)
    (m : option location_manager_h) :
  keeps (enabled_on m) (fun e => is_fetch e = false)
    (c <- gpsConnected env ;; if c then enableSat env ;; ret tt else ret tt).
Proof. unfold_controller. repeat (keeps_step; fetch_side). Qed.

(** X17. On [LOCATIONS_SERVICE_ENABLED], whatever the subscriptions and the
    warm-start did before, [onStateChange] ends with one fetch of the current
    position, one of the satellite status and one NMEA sentence, in that
    order and on the handle held, and these are its only fetches. What a
    successful fetch returned is what the reading holds afterwards; the
    handle is unchanged and the state recorded is the reported one. *)
Theorem enabled_event_fetches (env : oracle) (w : world) :
  let w1 := snd (onStateChange env LOCATIONS_SERVICE_ENABLED w) in
  let m := manager (s_location_data w) in
  exists before got status,
    trace w1 =
      trace w ++ before ++ [GetLocation m got; GetSatellite m status; GetNmea m] /\
    Forall (fun e => is_fetch e = false) before /\
    manager (s_location_data w1) = m /\
    state (s_location_data w1) = LOCATIONS_SERVICE_ENABLED /\
    (forall g, got = Some g -> s_gps_data w1 = g) /\
    (forall s, status = Some s -> s_sat_data w1 = s).
Proof.
  cbv zeta. remember (onStateChange env LOCATIONS_SERVICE_ENABLED w) as r eqn:Hr.
  unfold onStateChange, bind in Hr.
  unfold set_state at 1 in Hr. unfold bind, get_location_data at 1 in Hr.
  unfold put_location_data at 1 in Hr.
  set (w0 := {| s_location_data := _; s_gps_data := s_gps_data w;
                s_sat_data := s_sat_data w; trace := trace w;
                timers := timers w |}) in Hr.
  assert (H0 : enabled_on (manager (s_location_data w)) (s_location_data w0))
    by (split; reflexivity).
  destruct (enableGPS_fetches_nothing env _ w0 H0) as [H1 [evs1 [Ht1 Hq1]]].
  destruct (enableGPS env w0) as [r1 w1]. cbn [snd] in H1, Ht1.
  change (trace w0) with (trace w) in Ht1.
  destruct (sensor_check_fetches_nothing env _ w1 H1) as [H2 [evs2 [Ht2 Hq2]]].
  unfold bind in Ht2, H2.
  rewrite gpsConnected_eq in Ht2, H2, Hr. cbv beta iota zeta in Ht2, H2, Hr.
  match type of Ht2 with
  | context [snd (?k ?wc)] => destruct (k wc) as [u w2]
  end.
  cbn [snd] in H2, Ht2. destruct H2 as [Hm2 Hs2].
  unfold get_location_data, call, logNMEA, emit, ret, bind in Hr.
  cbn [s_location_data trace] in Hr. rewrite Hm2 in Hr.
  exists (evs1 ++ evs2),
    (location_manager_get_location env (trace w2) (manager (s_location_data w))).
  destruct (location_manager_get_location env (trace w2)
              (manager (s_location_data w))) as [g|];
    unfold put_gps_data in Hr; cbn [s_location_data trace] in Hr;
    match type of Hr with
    | context [GetSatellite ?m ?a] => exists a; destruct a as [s|]
    end;
    unfold put_sat_data in Hr; cbn in Hr; subst r; cbn;
    rewrite ?Hm2, Ht2, Ht1, <- !app_assoc; cbn [app];
    (split; [reflexivity|]);
    (split; [apply Forall_app; split; assumption|]);
    (split; [first [exact Hm2 | reflexivity]|]); (split; [exact Hs2|]);
    split; intros x Hx; congruence.
Qed.
